(** * Koda flashcards: the review scheduler and the study-session queue

    A shallow embedding of the scheduling code of the repository:

    - [src/api/index.ts]: the routes [/api/study/session],
      [/api/study/review] and [/api/study/due] of the serverless handler
      (module [Api]);
    - [src/client/src/pages/StudySessionPage.tsx]: [calculateSM2],
      [handleCardReview], [isSessionComplete] and the queue set-up of
      [fetchStudyData] (module [StudySessionPage]), and
      [calculateWeightedProgress] and [moveToNextAvailableCard] (module
      [StudyProgress]);
    - [src/api/index.ts] again: [rateLimit] and the routes that reset the
      progress of a deck and complete a session (module [Handler]);
    - [src/client/src/services/api.ts]: the fallbacks of [submitReview] and
      [startStudySession] on the local store (module [ApiService]).

    JavaScript numbers are modelled by exact rationals ([Q]); every numeric
    literal of the source (0.05, 0.1, 0.2, 0.25, 0.5, 0.7, 1.3, 1.5, 2.5,
    2.8, ...) is the decimal it is written as.  Timestamps are integers
    (milliseconds since the epoch), counters are integers.  Equality of
    rationals is [Qeq], written [==]. *)

From Stdlib Require Import ZArith QArith Qround Qminmax Lia Lqa String.
From stdpp Require Import base strings list sorting gmap.

Local Open Scope Z_scope.

(** ** JavaScript numbers *)

Module Math.

(** [Math.round]: the nearest integer, ties towards plus infinity. *)
Definition round (x : Q) : Q := inject_Z (Qfloor (x + (1 # 2))).

(** [Math.floor]. *)
Definition floor (x : Q) : Q := inject_Z (Qfloor x).

Definition max (x y : Q) : Q := Qmax x y.
Definition min (x y : Q) : Q := Qmin x y.

End Math.

(** [x >= y] and [x === y] on numbers. *)
Definition Qgeb (x y : Q) : bool := Qle_bool y x.
Definition Qeqb (x y : Q) : bool := Qeq_bool x y.

(** ToIntegerOrInfinity on a finite number: truncation towards zero. *)
Definition ToIntegerOrInfinity (x : Q) : Z :=
  if Qle_bool 0 x then Qfloor x else Qceiling x.

(** ** The [Date] operations the handler uses

    [new Date()], [getDate] and [setDate] as ECMA-262 defines them (section
    "Date Objects": Day, TimeWithinDay, DayFromYear, YearFromTime,
    MonthFromTime, DateFromTime, MakeDay, MakeDate).  The local time zone is
    a constant offset [LocalTZA] in milliseconds. *)

Module JSDate.

Definition msPerDay : Z := 86400000.

Definition Day (t : Z) : Z := t / msPerDay.
Definition TimeWithinDay (t : Z) : Z := t mod msPerDay.

Definition DaysInYear (y : Z) : Z :=
  if negb (y mod 4 =? 0) then 365
  else if negb (y mod 100 =? 0) then 366
  else if negb (y mod 400 =? 0) then 365
  else 366.

Definition DayFromYear (y : Z) : Z :=
  365 * (y - 1970) + (y - 1969) / 4 - (y - 1901) / 100 + (y - 1601) / 400.

(** The largest year [y] whose first day is not after day [Day t]: an
    estimate from the mean length of a year, moved by one where needed. *)
Definition YearFromTime (t : Z) : Z :=
  let d := Day t in
  let y := 1970 + (d * 400) / 146097 in
  if d <? DayFromYear y then y - 1
  else if DayFromYear (y + 1) <=? d then y + 1
  else y.

Definition InLeapYear (t : Z) : Z :=
  if DaysInYear (YearFromTime t) =? 365 then 0 else 1.

Definition DayWithinYear (t : Z) : Z := Day t - DayFromYear (YearFromTime t).

(** Day within the year on which month [m] (0..11) starts. *)
Definition monthStart (m leap : Z) : Z :=
  match m with
  | 0 => 0
  | 1 => 31
  | 2 => 59 + leap
  | 3 => 90 + leap
  | 4 => 120 + leap
  | 5 => 151 + leap
  | 6 => 181 + leap
  | 7 => 212 + leap
  | 8 => 243 + leap
  | 9 => 273 + leap
  | 10 => 304 + leap
  | _ => 334 + leap
  end.

Definition MonthFromTime (t : Z) : Z :=
  let d := DayWithinYear t in
  let leap := InLeapYear t in
  if d <? 31 then 0
  else if d <? 59 + leap then 1
  else if d <? 90 + leap then 2
  else if d <? 120 + leap then 3
  else if d <? 151 + leap then 4
  else if d <? 181 + leap then 5
  else if d <? 212 + leap then 6
  else if d <? 243 + leap then 7
  else if d <? 273 + leap then 8
  else if d <? 304 + leap then 9
  else if d <? 334 + leap then 10
  else 11.

(** The day of the month, 1..31: the table of ECMA-262
    ([DayWithinYear t + 1], [DayWithinYear t - 30],
    [DayWithinYear t - 58 - InLeapYear t], ...) written with [monthStart]. *)
Definition DateFromTime (t : Z) : Z :=
  DayWithinYear t - monthStart (MonthFromTime t) (InLeapYear t) + 1.

(** [MakeDay year month date]: the day number of the first of the month,
    plus [date - 1]; [date] goes through ToIntegerOrInfinity first. *)
Definition MakeDay (year month : Z) (date : Q) : Z :=
  let dt := ToIntegerOrInfinity date in
  let ym := year + month / 12 in
  let mn := month mod 12 in
  let leap := if DaysInYear ym =? 365 then 0 else 1 in
  DayFromYear ym + monthStart mn leap + dt - 1.

Definition MakeDate (day time : Z) : Z := day * msPerDay + time.

Definition LocalTime (LocalTZA t : Z) : Z := t + LocalTZA.
Definition UTC (LocalTZA t : Z) : Z := t - LocalTZA.

(** [d.getDate()] *)
Definition getDate (LocalTZA t : Z) : Z := DateFromTime (LocalTime LocalTZA t).

(** [d.setDate(date)]: the new time value of [d]. *)
Definition setDate (LocalTZA t : Z) (date : Q) : Z :=
  let lt := LocalTime LocalTZA t in
  let newDate :=
    MakeDate (MakeDay (YearFromTime lt) (MonthFromTime lt) date)
             (TimeWithinDay lt) in
  UTC LocalTZA newDate.

End JSDate.

(** ** Cards ([src/client/src/types/index.ts], and the rows of the card table)

    The text fields of a card ([front], [back], [hint], [type], [tags]) and
    [updatedAt] play no part in scheduling and are left out. *)

Inductive Stage : Set := new | learning | review | mastered.

#[global] Instance Stage_eq_dec : EqDecision Stage.
Proof. solve_decision. Defined.

Record Card : Type := mkCard {
  card_id : string;
  deckId : string;
  stage : Stage;
  interval : Q;
  easeFactor : Q;
  nextReviewAt : Z;
  reviewCount : Z;
  consecutiveCorrect : Z;
  createdAt : Z
}.

(** [n || 0] on a number. *)
Definition or_zero (n : Z) : Z := if n =? 0 then 0 else n.

(** ** The serverless handler, [src/api/index.ts] *)

Module Api.

(** *** The tables the three routes touch *)

Record Deck : Type := mkDeck { deck_id : string }.

Record StudySession : Type := mkStudySession {
  session_id : string;
  session_deckId : string;
  sessionType : string
}.

Record ReviewHistory : Type := mkReviewHistory {
  h_cardId : string;
  h_sessionId : option string;
  h_quality : Q;
  h_responseTime : Q;
  h_wasCorrect : bool;
  intervalBefore : Q;
  intervalAfter : Q
}.

Record Db : Type := mkDb {
  decks : list Deck;
  cards : list Card;
  studySessions : list StudySession;
  reviewHistories : list ReviewHistory
}.

(** What a request reads from its environment: the clock ([new Date()]),
    the time zone of the process and the id the database gives a new row. *)
Record Env : Type := mkEnv { now : Z; LocalTZA : Z; freshId : string }.

Inductive Response (A : Type) : Type :=
| Ok200 (body : A)
| NotFound404 (error : string)
| ZodError.
Arguments Ok200 {A} body.
Arguments NotFound404 {A} error.
Arguments ZodError {A}.

(** *** Prisma queries *)

(** [orderBy: [{ nextReviewAt: 'asc' }, { createdAt: 'asc' }]] *)
Definition orderBy_le (a b : Card) : Prop :=
  nextReviewAt a < nextReviewAt b
  \/ (nextReviewAt a = nextReviewAt b /\ createdAt a <= createdAt b).

#[global] Instance orderBy_le_dec : RelDecision orderBy_le.
Proof. intros a b; unfold orderBy_le; apply _. Defined.

(** [take]: the first [n] rows, or for a negative [n] the last [-n]. *)
Definition prisma_take {A : Type} (n : option Z) (rows : list A) : list A :=
  match n with
  | None => rows
  | Some n =>
      if 0 <=? n then take (Z.to_nat n) rows
      else drop (length rows - Z.to_nat (- n)) rows
  end.

(** [prisma.card.findMany({ where, take, orderBy })] with the ordering of
    the two study routes: the rows that pass [where], sorted, cut by [take].
    Rows that agree on both keys come in the order the sort leaves them in;
    the database fixes none. *)
Definition findMany (where_ : Card -> Prop) `{!forall c, Decision (where_ c)}
    (n : option Z) (rows : list Card) : list Card :=
  prisma_take n (merge_sort orderBy_le (filter where_ rows)).

(** [prisma.card.findUnique({ where: { id } })] *)
Definition findUnique (id : string) (rows : list Card) : option Card :=
  List.find (fun c => bool_decide (card_id c = id)) rows.

(** [prisma.card.update({ where: { id }, data })] *)
Definition update (id : string) (data : Card -> Card) (rows : list Card)
    : list Card :=
  (fun c => if bool_decide (card_id c = id) then data c else c) <$> rows.

(** *** Route [/api/study/session] *)

Record StartStudySession : Type := mkStartStudySession {
  s_deckId : string;
  s_sessionType : option string;
  s_maxCards : option Z
}.

(** [startStudySessionSchema.parse]: the defaults of the optional fields. *)
Definition startStudySessionSchema (body : StartStudySession)
    : string * string * Z :=
  (s_deckId body,
   default "mixed"%string (s_sessionType body),
   default 20 (s_maxCards body)).

Definition notMastered (deck : string) (c : Card) : Prop :=
  deckId c = deck /\ stage c <> mastered.

#[global] Instance notMastered_dec deck c : Decision (notMastered deck c).
Proof. unfold notMastered; apply _. Defined.

Definition study_session (env : Env) (db : Db) (body : StartStudySession)
    : Response (StudySession * list Card) * Db :=
  let '(deckId, sessionType, maxCards) := startStudySessionSchema body in
  match List.find (fun d => bool_decide (deck_id d = deckId)) (decks db) with
  | None => (NotFound404 "Deck not found", db)
  | Some _ =>
      (* Get all non-mastered cards for study *)
      let cards_ := findMany (notMastered deckId) (Some maxCards) (cards db) in
      let session := mkStudySession (freshId env) deckId sessionType in
      (Ok200 (session, cards_),
       mkDb (decks db) (cards db) (session :: studySessions db)
            (reviewHistories db))
  end.

(** *** Route [/api/study/due] *)

Definition due (now_ : Z) (c : Card) : Prop :=
  nextReviewAt c <= now_ \/ stage c = new.

#[global] Instance due_dec now_ c : Decision (due now_ c).
Proof. unfold due; apply _. Defined.

Record DueResult : Type := mkDueResult {
  due_cards : list Card;
  totalDue : nat
}.

Definition study_due (env : Env) (db : Db) (limit : option Z) : DueResult :=
  let cards_ := findMany (due (now env)) limit (cards db) in
  let totalDue := length (filter (due (now env)) (cards db)) in
  mkDueResult cards_ totalDue.

(** *** Route [/api/study/review] *)

Record Review : Type := mkReview {
  cardId : string;
  sessionId : option string;
  quality : Q;
  responseTime : Q;
  wasCorrect : bool
}.

(** [reviewSchema.parse]: [quality: z.number().min(0).max(5)]. *)
Definition reviewSchema (body : Review) : option Review :=
  if Qle_bool 0 (quality body) && Qle_bool (quality body) 5
  then Some body else None.

(** The scheduling step of the route: the four [let] variables after the
    [if (wasCorrect) ... else ...]. *)
Record Schedule : Type := mkSchedule {
  newStage : Stage;
  newInterval : Q;
  newEaseFactor : Q;
  newConsecutiveCorrect : Z
}.

Definition schedule (card : Card) (quality : Q) (wasCorrect : bool)
    : Schedule :=
  let newInterval := interval card in
  let newEaseFactor := easeFactor card in
  let newStage := stage card in
  let newConsecutiveCorrect := or_zero (consecutiveCorrect card) in
  if wasCorrect then
    let newConsecutiveCorrect := newConsecutiveCorrect + 1 in
    (* Stage progression *)
    let '(newStage, newInterval) :=
      match stage card with
      | new =>
          (learning, if Qgeb quality 4 then 2%Q else 1%Q)
      | learning =>
          if (2 <=? newConsecutiveCorrect) && Qgeb quality 3 then
            (review, if Qgeb quality 4 then 5%Q else 4%Q)
          else
            (newStage, Math.max 1 (Math.round (interval card * 1.3)))
      | review =>
          let newStage :=
            if (3 <=? newConsecutiveCorrect) && Qgeb quality 4 then mastered
            else if (4 <=? newConsecutiveCorrect) && Qgeb quality 3
                 then mastered
            else newStage in
          (newStage, Math.max 1 (Math.round (interval card * newEaseFactor)))
      | mastered =>
          (newStage, Math.max 7 (Math.round (interval card * newEaseFactor)))
      end in
    (* Adjust ease factor based on quality *)
    let newEaseFactor :=
      if Qgeb quality 4 then Math.min 2.8 (newEaseFactor + 0.1)
      else if Qeqb quality 3 then Math.min 2.8 (newEaseFactor + 0.05)
      else Math.max 1.3 (newEaseFactor - 0.1) in
    mkSchedule newStage newInterval newEaseFactor newConsecutiveCorrect
  else
    (* Failed review *)
    let newConsecutiveCorrect := 0 in
    let newEaseFactor := Math.max 1.3 (newEaseFactor - 0.2) in
    let '(newStage, newInterval) :=
      match stage card with
      | mastered | review => (learning, 1%Q)
      | learning => (new, 0.5%Q)
      | new => (newStage, 0.25%Q)
      end in
    mkSchedule newStage newInterval newEaseFactor newConsecutiveCorrect.

Record ReviewResult : Type := mkReviewResult {
  r_card : Card;
  r_nextReviewAt : Z;
  r_interval : Q
}.

Definition study_review (env : Env) (db : Db) (body : Review)
    : Response ReviewResult * Db :=
  match reviewSchema body with
  | None => (ZodError, db)
  | Some (mkReview cardId sessionId quality responseTime wasCorrect) =>
      let session_ok :=
        match sessionId with
        | None => true
        | Some "" => true
        | Some sid =>
            bool_decide
              (List.find (fun s => bool_decide (session_id s = sid))
                         (studySessions db) <> None)
        end in
      if negb session_ok then (NotFound404 "Study session not found", db)
      else
      match findUnique cardId (cards db) with
      | None => (NotFound404 "Card not found", db)
      | Some card =>
          let s := schedule card quality wasCorrect in
          (* const nextReviewAt = new Date();
             nextReviewAt.setDate(nextReviewAt.getDate() + newInterval); *)
          let nextReviewAt_ :=
            JSDate.setDate (LocalTZA env) (now env)
              (inject_Z (JSDate.getDate (LocalTZA env) (now env))
               + newInterval s) in
          let data (c : Card) : Card :=
            mkCard (card_id c) (deckId c) (newStage s) (newInterval s)
                   (newEaseFactor s) nextReviewAt_ (reviewCount c + 1)
                   (newConsecutiveCorrect s) (createdAt c) in
          let updatedCard := data card in
          let history :=
            mkReviewHistory cardId
              (match sessionId with Some "" => None | o => o end)
              quality responseTime wasCorrect
              (interval card) (newInterval s) in
          (Ok200 (mkReviewResult updatedCard nextReviewAt_ (newInterval s)),
           mkDb (decks db) (update cardId data (cards db))
                (studySessions db) (history :: reviewHistories db))
      end
  end.

End Api.

(** ** The study page, [src/client/src/pages/StudySessionPage.tsx] *)

Module StudySessionPage.

(** An element of [studyQueue]: [Card & { reviewCount; nextShowTime? }].
    The [reviewCount] of [q_card] is the counter of reviews in this session;
    [repetition] is the property [Object.assign] adds at the first review. *)
Record QueueCard : Type := mkQueueCard {
  q_card : Card;
  repetition : option Z;
  nextShowTime : option Z
}.

Record SM2Result : Type := mkSM2Result {
  sm2_interval : Q;
  sm2_repetition : Z;
  sm2_easeFactor : Q;
  sm2_stage : Stage;
  sm2_consecutiveCorrect : Z
}.

Definition calculateSM2 (card : QueueCard) (quality : Q) : SM2Result :=
  let interval := interval (q_card card) in
  let repetition := default 0 (repetition card) in
  let easeFactor := easeFactor (q_card card) in
  let stage := stage (q_card card) in
  let consecutiveCorrect := consecutiveCorrect (q_card card) in
  let '(interval, repetition, easeFactor, stage, consecutiveCorrect) :=
    if Qgeb quality 3 then
      (* Successful review (Good=3 or Easy=4) *)
      let repetition := repetition + 1 in
      let consecutiveCorrect := consecutiveCorrect + 1 in
      let '(stage, interval) :=
        match stage with
        | new => (learning, if Qeqb quality 4 then 2%Q else 1%Q)
        | learning =>
            if Qeqb quality 4 && (1 <=? consecutiveCorrect) then (review, 4%Q)
            else if Qeqb quality 3 && (2 <=? consecutiveCorrect)
                 then (review, 3%Q)
            else (stage, Math.max 1 (Math.round (interval * 1.5)))
        | review =>
            let stage :=
              if Qeqb quality 4 && (2 <=? consecutiveCorrect) then mastered
              else if Qeqb quality 3 && (3 <=? consecutiveCorrect)
                   then mastered
              else stage in
            (stage, Math.round (interval * easeFactor))
        | mastered => (stage, Math.round (interval * easeFactor))
        end in
      let easeFactor :=
        if Qeqb quality 4 then Math.min 2.5 (easeFactor + 0.1)
        else if Qeqb quality 3 then Math.min 2.5 (easeFactor + 0.05)
        else easeFactor in
      (interval, repetition, easeFactor, stage, consecutiveCorrect)
    else
      (* Failed review (Again=1 or Hard=2) *)
      let consecutiveCorrect := 0 in
      if Qeqb quality 1 then
        let repetition := Z.max 0 (repetition - 1) in
        let interval := 0.25%Q in
        let stage :=
          match stage with
          | review | mastered => learning
          | _ => stage
          end in
        let easeFactor := Math.max 1.3 (easeFactor - 0.2) in
        (interval, repetition, easeFactor, stage, consecutiveCorrect)
      else
        let interval := Math.max 0.5 (Math.round (interval * 0.7)) in
        let easeFactor := Math.max 1.3 (easeFactor - 0.1) in
        (interval, repetition, easeFactor, stage, consecutiveCorrect) in
  (* Ensure interval is reasonable *)
  let interval := Math.max 0.25 (Math.min 365 interval) in
  mkSM2Result interval repetition easeFactor stage consecutiveCorrect.

Record StageProgress : Type := mkStageProgress {
  p_new : Z; p_learning : Z; p_review : Z; p_mastered : Z
}.

Record SessionStats : Type := mkSessionStats {
  studied : Z;
  correct : Z;
  totalReviews : Z;
  stageProgress : StageProgress
}.

Record State : Type := mkState {
  studyQueue : list QueueCard;
  currentCardIndex : nat;
  sessionStats : SessionStats;
  isOfflineMode : bool
}.

(** [calculateStageProgress]: the cards of the queue per stage; cards in
    stage [mastered] are not counted, [masteredCount] is passed in. *)
Definition calculateStageProgress (cards : list Card) (masteredCount : Z)
    : StageProgress :=
  fold_left
    (fun progress card =>
       match stage card with
       | new =>
           mkStageProgress (p_new progress + 1) (p_learning progress)
                           (p_review progress) (p_mastered progress)
       | learning =>
           mkStageProgress (p_new progress) (p_learning progress + 1)
                           (p_review progress) (p_mastered progress)
       | review =>
           mkStageProgress (p_new progress) (p_learning progress)
                           (p_review progress + 1) (p_mastered progress)
       | mastered => progress
       end)
    cards (mkStageProgress 0 0 0 masteredCount).

(** The queue [fetchStudyData] builds from the cards of the session
    response: [{ ...card, reviewCount: 0, nextShowTime: undefined }]. *)
Definition initialQueue (cards : list Card) : list QueueCard :=
  (fun card =>
     mkQueueCard
       (mkCard (card_id card) (deckId card) (stage card) (interval card)
               (easeFactor card) (nextReviewAt card) 0
               (consecutiveCorrect card) (createdAt card))
       None None)
  <$> cards.

Definition initialStats : SessionStats :=
  mkSessionStats 0 0 0 (mkStageProgress 0 0 0 0).

(** The state after [fetchStudyData] received the session response. *)
Definition fetchStudyData (cards : list Card) : State :=
  match cards with
  | [] => mkState [] 0 initialStats false
  | _ =>
      mkState (initialQueue cards) 0
        (mkSessionStats 0 0 0
           (calculateStageProgress cards 0))
        false
  end.

Definition isSessionComplete (st : State) : bool :=
  Nat.eqb (length (studyQueue st)) 0.

(** [Object.assign(currentCardData, sm2Result)] followed by
    [currentCardData.reviewCount = (currentCardData.reviewCount || 0) + 1]. *)
Definition assignSM2 (card : QueueCard) (r : SM2Result) : QueueCard :=
  let c := q_card card in
  mkQueueCard
    (mkCard (card_id c) (deckId c) (sm2_stage r) (sm2_interval r)
            (sm2_easeFactor r) (nextReviewAt c) (or_zero (reviewCount c) + 1)
            (sm2_consecutiveCorrect r) (createdAt c))
    (Some (sm2_repetition r)) (nextShowTime card).

(** The checks of [reviewData] before it is sent: a non-empty [cardId], an
    integer [Math.floor(quality)] in 1..4, a non-negative
    [Math.floor(responseTime)]. *)
Definition validReviewData (cardId : string) (quality responseTime : Q)
    : bool :=
  negb (bool_decide (cardId = ""%string))
  && Qle_bool 1 (Math.floor quality) && Qle_bool (Math.floor quality) 4
  && Qle_bool 0 (Math.floor responseTime).

(** [handleCardReview].  [submitReview_ok] tells whether
    [await ApiService.submitReview(reviewData)] returned ([true]) or threw
    ([false]); the [try] block runs to its end when the review data is
    valid and the call returned, otherwise the [catch] block runs.  The
    [try] block computes the statistics before it takes a mastered card out
    of [updatedQueue], the [catch] block after. *)
Definition handleCardReview (st : State) (quality responseTime : Q)
    (wasCorrect : bool) (submitReview_ok : bool) : State :=
  let currentCardIndex := currentCardIndex st in
  match studyQueue st !! currentCardIndex with
  | None => st
  | Some currentCardData =>
      let sm2Result := calculateSM2 currentCardData quality in
      let updatedQueue :=
        <[currentCardIndex := assignSM2 currentCardData sm2Result]>
          (studyQueue st) in
      let shouldRemoveFromQueue :=
        bool_decide (sm2_stage sm2Result = mastered) in
      let prev := sessionStats st in
      let studied_ :=
        if shouldRemoveFromQueue then studied prev + 1 else studied prev in
      if validReviewData (card_id (q_card currentCardData))
                         quality responseTime
         && submitReview_ok
      then
        let offline :=
          if isOfflineMode st then false else isOfflineMode st in
        let stats :=
          mkSessionStats studied_
            (correct prev + (if wasCorrect then 1 else 0))
            (totalReviews prev + 1)
            (calculateStageProgress (q_card <$> updatedQueue) studied_) in
        if shouldRemoveFromQueue then
          let updatedQueue := delete currentCardIndex updatedQueue in
          let index :=
            if Nat.leb (length updatedQueue) currentCardIndex
               && Nat.ltb 0 (length updatedQueue)
            then 0%nat else currentCardIndex in
          mkState updatedQueue index stats offline
        else
          let nextIndex := (currentCardIndex + 1)%nat in
          let nextIndex :=
            if Nat.leb (length updatedQueue) nextIndex then 0%nat
            else nextIndex in
          mkState updatedQueue nextIndex stats offline
      else
        let offline :=
          if negb (isOfflineMode st) then true else isOfflineMode st in
        let nextIndex := currentCardIndex in
        let '(updatedQueue, nextIndex) :=
          if shouldRemoveFromQueue then
            let updatedQueue := delete currentCardIndex updatedQueue in
            (updatedQueue,
             if Nat.leb (length updatedQueue) currentCardIndex
                && Nat.ltb 0 (length updatedQueue)
             then 0%nat else nextIndex)
          else
            (updatedQueue,
             ((currentCardIndex + 1) mod length updatedQueue)%nat) in
        let stats :=
          mkSessionStats studied_
            (correct prev + (if wasCorrect then 1 else 0))
            (totalReviews prev + 1)
            (calculateStageProgress (q_card <$> updatedQueue) studied_) in
        mkState updatedQueue nextIndex stats offline
  end.

(** One review event of a session: the rating, the response time, the
    [wasCorrect] flag and whether the backend took the review. *)
Record ReviewEvent : Type := mkReviewEvent {
  ev_quality : Q;
  ev_responseTime : Q;
  ev_wasCorrect : bool;
  ev_submitted : bool
}.

(** A session: the reviews handled one after the other. *)
Definition session (events : list ReviewEvent) (st : State) : State :=
  fold_left
    (fun st ev =>
       handleCardReview st (ev_quality ev) (ev_responseTime ev)
                        (ev_wasCorrect ev) (ev_submitted ev))
    events st.

End StudySessionPage.

(** ** Concrete data for the examples below *)

Module Sample.

(** 14 November 2023, 22:13:20 UTC; the process runs in UTC. *)
Definition env : Api.Env := Api.mkEnv 1700000000000 0 "session-1".

Definition hour : Z := 3600000.

(** A card of the scenario of the specification: learning, interval 1,
    ease factor 2.5, one correct answer in a row. *)
Definition learningCard : Card :=
  mkCard "card-1" "deck-1" learning 1 2.5 (1700000000000 + 24 * hour) 3 1
         1690000000000.

(** A card that was never answered correctly, due now. *)
Definition newCard : Card :=
  mkCard "card-2" "deck-1" new 1 2.5 1700000000000 0 0 1690000000001.

(** A card in review with the smallest ease factor and interval. *)
Definition reviewCard : Card :=
  mkCard "card-3" "deck-1" review 1 1.3 1700000000000 7 2 1690000000002.

Definition db : Api.Db :=
  Api.mkDb [Api.mkDeck "deck-1"] [learningCard; newCard; reviewCard] [] [].

(** The "Again" answer of the study page on [newCard]. *)
Definition failedReview : Api.Review :=
  Api.mkReview "card-2" None 1 1500 false.

(** The request the study page sends to start a session. *)
Definition startBody : Api.StartStudySession :=
  Api.mkStartStudySession "deck-1" (Some "mixed"%string) (Some 100).

(** Three cards, none of them new, due one millisecond after, one
    millisecond before and exactly at the time of [env]. *)
Definition dueAfter : Card :=
  mkCard "card-a" "deck-1" learning 1 2.5 (1700000000000 + 1) 1 0 1.
Definition dueBefore : Card :=
  mkCard "card-b" "deck-1" review 4 2.5 (1700000000000 - 1) 2 2 2.
Definition dueAtNow : Card :=
  mkCard "card-c" "deck-1" learning 1 2.5 1700000000000 1 1 3.

Definition dueDb : Api.Db :=
  Api.mkDb [Api.mkDeck "deck-1"] [dueAfter; dueBefore; dueAtNow] [] [].

(** A session of two cards, and its first card as it sits in the queue. *)
Definition twoCards : StudySessionPage.State :=
  StudySessionPage.fetchStudyData [newCard; reviewCard].

Definition firstCard : StudySessionPage.QueueCard :=
  StudySessionPage.mkQueueCard newCard None None.

(** Three "Easy" answers; the second one does not reach the backend. *)
Definition easyAnswers : list StudySessionPage.ReviewEvent :=
  [StudySessionPage.mkReviewEvent 4 1500 true true;
   StudySessionPage.mkReviewEvent 4 900 true false;
   StudySessionPage.mkReviewEvent 4 700 true true].

End Sample.

(** ** Notions used in the statements *)

(** The review route and [calculateSM2] compute the same stage, interval,
    ease factor and number of correct answers in a row. *)
Definition same_result (s : Api.Schedule) (r : StudySessionPage.SM2Result)
    : Prop :=
  Api.newStage s = StudySessionPage.sm2_stage r
  /\ (Api.newInterval s == StudySessionPage.sm2_interval r)%Q
  /\ (Api.newEaseFactor s == StudySessionPage.sm2_easeFactor r)%Q
  /\ Api.newConsecutiveCorrect s = StudySessionPage.sm2_consecutiveCorrect r.

(** The current card exists unless the queue is empty, and no card has a
    negative number of correct answers in a row. *)
Definition wellFormed (st : StudySessionPage.State) : Prop :=
  (StudySessionPage.studyQueue st = []
   \/ (StudySessionPage.currentCardIndex st
       < length (StudySessionPage.studyQueue st))%nat)
  /\ Forall (fun card => 0 <= consecutiveCorrect (StudySessionPage.q_card card))
            (StudySessionPage.studyQueue st).

(** The "Easy" answers (quality 4) a card still needs before it leaves the
    queue, at most. *)
Definition reviewsLeft (card : StudySessionPage.QueueCard) : nat :=
  match stage (StudySessionPage.q_card card) with
  | new => 3
  | learning => 2
  | review =>
      if 1 <=? consecutiveCorrect (StudySessionPage.q_card card) then 1 else 2
  | mastered => 1
  end.

Definition totalReviewsLeft (queue : list StudySessionPage.QueueCard) : nat :=
  sum_list (reviewsLeft <$> queue).

(** An "Easy" answer: quality 4 and [wasCorrect = true]. *)
Definition easy (ev : StudySessionPage.ReviewEvent) : Prop :=
  (StudySessionPage.ev_quality ev == 4)%Q
  /\ StudySessionPage.ev_wasCorrect ev = true.

(** ** More of the handler, [src/api/index.ts] *)

Module Handler.

Import Api.

(** *** [rateLimit]

    [rateLimitStore] maps a key, [`${clientIp}:${req.url}`], to the count
    of the requests of the current window and the time the window ends. *)

Record ClientData : Type := mkClientData { count : Z; resetTime : Z }.

Definition rateLimitKey (clientIp url : string) : string :=
  clientIp +:+ ":" +:+ url.

(** The answer of [rateLimit] ([false] goes with a response 429) and the
    store it leaves. *)
Definition rateLimit (rateLimitStore : gmap string ClientData)
    (key : string) (now_ limit windowMs : Z)
    : bool * gmap string ClientData :=
  match rateLimitStore !! key with
  | None =>
      (true, <[key := mkClientData 1 (now_ + windowMs)]> rateLimitStore)
  | Some clientData =>
      if resetTime clientData <? now_ then
        (true, <[key := mkClientData 1 (now_ + windowMs)]> rateLimitStore)
      else if limit <=? count clientData then (false, rateLimitStore)
      else
        (true,
         <[key := mkClientData (count clientData + 1) (resetTime clientData)]>
           rateLimitStore)
  end.

(** The requests of one client for one URL, at the given times, one after the
    other: the answers, and the store at the end. *)
Fixpoint requests (rateLimitStore : gmap string ClientData) (key : string)
    (limit windowMs : Z) (times : list Z)
    : list bool * gmap string ClientData :=
  match times with
  | [] => ([], rateLimitStore)
  | now_ :: times =>
      let '(allowed, store) :=
        rateLimit rateLimitStore key now_ limit windowMs in
      let '(answers, store) := requests store key limit windowMs times in
      (allowed :: answers, store)
  end.

(** *** Route [/api/decks/[id]/reset-progress] *)

(** The [data] of the [updateMany]. *)
Definition resetCard (now_ : Z) (c : Card) : Card :=
  mkCard (card_id c) (deckId c) new 1 2.5 now_ 0 0 (createdAt c).

Definition inDeck (deck : string) (c : Card) : Prop := deckId c = deck.

#[global] Instance inDeck_dec deck c : Decision (inDeck deck c).
Proof. unfold inDeck; apply _. Defined.

(** The answer carries [cardsReset], the number of rows updated. *)
Definition decks_reset_progress (env : Env) (db : Db) (deckId_ : string)
    : Response nat * Db :=
  match List.find (fun d => bool_decide (deck_id d = deckId_)) (decks db) with
  | None => (NotFound404 "Deck not found", db)
  | Some _ =>
      let cards_ :=
        (fun c => if decide (inDeck deckId_ c) then resetCard (now env) c
                  else c) <$> cards db in
      (Ok200 (length (filter (inDeck deckId_) (cards db))),
       mkDb (decks db) cards_ (studySessions db) (reviewHistories db))
  end.

(** *** Route [/api/study/session/[id]/complete]

    The columns the route writes ([cardsStudied], [cardsCorrect],
    [totalTime], [completedAt]) are not among those of [StudySession]; the
    model gives the answer of the route: the session, the data written and
    the accuracy. *)

Record CompleteSession : Type := mkCompleteSession {
  cardsStudied : Q;
  cardsCorrect : Q;
  totalTime : Q
}.

Record CompletedSession : Type := mkCompletedSession {
  completed_session : StudySession;
  completed_data : CompleteSession;
  completedAt : Z
}.

(** [Math.round(cardsStudied > 0 ? (cardsCorrect / cardsStudied) * 100 : 0)] *)
Definition accuracy (body : CompleteSession) : Q :=
  Math.round
    (if negb (Qle_bool (cardsStudied body) 0)
     then (cardsCorrect body / cardsStudied body * 100)%Q
     else 0%Q).

Definition study_session_complete (env : Env) (db : Db) (sessionId_ : string)
    (body : CompleteSession) : Response (CompletedSession * Q) :=
  match List.find (fun s => bool_decide (session_id s = sessionId_))
                  (studySessions db) with
  | None => NotFound404 "Study session not found"
  | Some session =>
      Ok200 (mkCompletedSession session body (now env), accuracy body)
  end.

End Handler.

(** ** More of the study page, [src/client/src/pages/StudySessionPage.tsx] *)

Module StudyProgress.

Import StudySessionPage.

(** Stage weights: new=0%, learning=25%, review=60%, mastered=100%. *)
Definition stageWeights (s : Stage) : Q :=
  match s with
  | new => 0
  | learning => 0.25
  | review => 0.6
  | mastered => 1.0
  end.

(** [calculateWeightedProgress]: the progress bar of the session, from 0 to
    100. *)
Definition calculateWeightedProgress (initialCards currentQueue : list Card)
    (masteredCount : Z) : Q :=
  if Nat.eqb (length initialCards) 0 then 0%Q
  else
    let totalWeightedProgress :=
      (0 + inject_Z masteredCount * stageWeights mastered)%Q in
    let totalWeightedProgress :=
      fold_left
        (fun total card => (total + stageWeights (stage card))%Q)
        currentQueue totalWeightedProgress in
    Math.min 100
      (totalWeightedProgress / inject_Z (Z.of_nat (length initialCards))
       * 100)%Q.

(** The progress bar the page renders: [calculateWeightedProgress] of
    [initialCards], [studyQueue] and [sessionStats.studied]. *)
Definition weightedProgress (initialCards : list Card) (st : State) : Q :=
  calculateWeightedProgress initialCards (q_card <$> studyQueue st)
                            (studied (sessionStats st)).

(** A card can be shown: [!card.nextShowTime || card.nextShowTime <= now]. *)
Definition ready (now_ : Z) (card : QueueCard) : bool :=
  match nextShowTime card with
  | None => true
  | Some t => t <=? now_
  end.

(** The first loop of [moveToNextAvailableCard]: the index of the first card
    that can be shown, from index [i] on. *)
Fixpoint firstReady (now_ : Z) (i : nat) (queue : list QueueCard)
    : option nat :=
  match queue with
  | [] => None
  | card :: queue =>
      if ready now_ card then Some i else firstReady now_ (S i) queue
  end.

(** The second loop, from index [i] on: the card with the earliest
    [nextShowTime]. *)
Fixpoint earliest (i : nat) (queue : list QueueCard)
    (earliestTime : option Z) (nextIndex : nat) : nat :=
  match queue with
  | [] => nextIndex
  | card :: queue =>
      match nextShowTime card with
      | Some t =>
          if match earliestTime with
             | None => true
             | Some e => t <? e
             end
          then earliest (S i) queue (Some t) i
          else earliest (S i) queue earliestTime nextIndex
      | None => earliest (S i) queue earliestTime nextIndex
      end
  end.

(** [moveToNextAvailableCard]: the index it sets. *)
Definition moveToNextAvailableCard (now_ : Z) (queue : list QueueCard) : nat :=
  match firstReady now_ 0 queue with
  | Some nextIndex => nextIndex
  | None =>
      match queue with
      | [] => 0%nat
      | card :: rest => earliest 1 rest (nextShowTime card) 0
      end
  end.

End StudyProgress.

(** ** The fallback of [ApiService.submitReview],
    [src/client/src/services/api.ts] *)

Module ApiService.

Import Api.

(** The scheduling step of the fallback, on the card of the local store. *)
Definition demoSchedule (card : Card) (quality : Q) (wasCorrect : bool)
    : Schedule :=
  let newInterval := interval card in
  let newEaseFactor := easeFactor card in
  let newStage := stage card in
  let newConsecutiveCorrect := or_zero (consecutiveCorrect card) in
  if wasCorrect then
    let newConsecutiveCorrect := newConsecutiveCorrect + 1 in
    let '(newStage, newInterval) :=
      match stage card with
      | new =>
          (learning, if Qgeb quality 4 then 2%Q else 1%Q)
      | learning =>
          if (2 <=? newConsecutiveCorrect) && Qgeb quality 3 then
            (review, if Qgeb quality 4 then 5%Q else 4%Q)
          else
            (newStage, Math.max 1 (Math.round (interval card * 1.3)))
      | review =>
          let newStage :=
            if (3 <=? newConsecutiveCorrect) && Qgeb quality 4 then mastered
            else newStage in
          (newStage, Math.max 1 (Math.round (interval card * newEaseFactor)))
      | mastered =>
          (newStage, Math.max 7 (Math.round (interval card * newEaseFactor)))
      end in
    let newEaseFactor :=
      if Qgeb quality 4 then Math.min 2.8 (newEaseFactor + 0.1)
      else if Qeqb quality 3 then Math.min 2.8 (newEaseFactor + 0.05)
      else newEaseFactor in
    mkSchedule newStage newInterval newEaseFactor newConsecutiveCorrect
  else
    let newConsecutiveCorrect := 0 in
    let newEaseFactor := Math.max 1.3 (newEaseFactor - 0.2) in
    let '(newStage, newInterval) :=
      match stage card with
      | mastered | review => (learning, 1%Q)
      | learning => (new, 0.5%Q)
      | new => (newStage, 0.25%Q)
      end in
    mkSchedule newStage newInterval newEaseFactor newConsecutiveCorrect.

(** The fallback of [ApiService.startStudySession], on the decks, cards and
    sessions of the local store. *)

(** [cards.sort((a, b) => time(a.nextReviewAt) - time(b.nextReviewAt))]: a
    stable sort by [nextReviewAt]. *)
Fixpoint insertCard (x : Card) (l : list Card) : list Card :=
  match l with
  | [] => [x]
  | y :: l' =>
      if nextReviewAt x <=? nextReviewAt y then x :: l
      else y :: insertCard x l'
  end.

Definition sortCards (l : list Card) : list Card := foldr insertCard [] l.

(** [cards.slice(0, n)] for an integer [n]: a negative [n] counts from the
    end. *)
Definition slice0 {A : Type} (n : Z) (l : list A) : list A :=
  if 0 <=? n then take (Z.to_nat n) l
  else take (length l - Z.to_nat (- n)) l.

Definition demoStartStudySession (env : Env) (store : Db)
    (data : StartStudySession)
    : Response (StudySession * list Card) * Db :=
  match List.find (fun d => bool_decide (deck_id d = s_deckId data))
                  (decks store) with
  | None => (NotFound404 "Deck not found", store)
  | Some _ =>
      let deckCards := filter (notMastered (s_deckId data)) (cards store) in
      (* const maxCards = data.maxCards || 20; *)
      let maxCards :=
        match s_maxCards data with
        | None => 20
        | Some n => if n =? 0 then 20 else n
        end in
      let cardsForStudy := slice0 maxCards (sortCards deckCards) in
      let session :=
        mkStudySession (freshId env) (s_deckId data)
          (match s_sessionType data with
           | None | Some "" => "mixed"%string
           | Some t => t
           end) in
      (Ok200 (session, cardsForStudy),
       mkDb (decks store) (cards store) (session :: studySessions store)
            (reviewHistories store))
  end.

End ApiService.

(** ** More notions used in the statements *)

(** The stages in the order of progress. *)
Definition rank (s : Stage) : Z :=
  match s with
  | new => 0
  | learning => 1
  | review => 2
  | mastered => 3
  end.

(** No card of the queue is [mastered]. *)
Definition noneMastered (queue : list StudySessionPage.QueueCard) : Prop :=
  Forall (fun card => stage (StudySessionPage.q_card card) <> mastered) queue.


(** ** More concrete data *)

Module Cases.

(** The "Easy" answer on the learning card of [Sample.db]. *)
Definition correctReview : Api.Review :=
  Api.mkReview "card-1" None 4 1200 true.


(** A queue whose cards all wait: the second one is shown first. *)
Definition waiting : list StudySessionPage.QueueCard :=
  [StudySessionPage.mkQueueCard Sample.newCard None (Some 1700000009000);
   StudySessionPage.mkQueueCard Sample.reviewCard None (Some 1700000005000);
   StudySessionPage.mkQueueCard Sample.learningCard None (Some 1700000007000)].

End Cases.

(** * Properties *)

Import Api StudySessionPage.

(** ** Numbers *)

Lemma Qgeb_true (x y : Q) : Qgeb x y = true <-> (y <= x)%Q.
Proof. unfold Qgeb. apply Qle_bool_iff. Qed.

Lemma Qgeb_false (x y : Q) : Qgeb x y = false <-> (x < y)%Q.
Proof.
  unfold Qgeb. split; intros H.
  - apply Qnot_le_lt. intros Hle. apply Qle_bool_iff in Hle. congruence.
  - destruct (Qle_bool y x) eqn:E; [|reflexivity].
    apply Qle_bool_iff in E. exfalso. apply (Qlt_not_le _ _ H E).
Qed.

Lemma Qeqb_true (x y : Q) : Qeqb x y = true <-> (x == y)%Q.
Proof. unfold Qeqb. apply Qeq_bool_iff. Qed.

Lemma Qfloor_add_Z (z : Z) (x : Q) : Qfloor (inject_Z z + x) = z + Qfloor x.
Proof.
  pose proof (Qfloor_le x) as Hlo. pose proof (Qlt_floor x) as Hhi.
  pose proof (Qfloor_le (inject_Z z + x)) as Hlo'.
  pose proof (Qlt_floor (inject_Z z + x)) as Hhi'.
  rewrite inject_Z_plus in Hhi, Hhi'.
  assert (H1 : (inject_Z (Qfloor (inject_Z z + x))
                < inject_Z (z + Qfloor x + 1))%Q).
  { rewrite !inject_Z_plus. lra. }
  assert (H2 : (inject_Z (z + Qfloor x)
                < inject_Z (Qfloor (inject_Z z + x) + 1))%Q).
  { rewrite !inject_Z_plus. lra. }
  rewrite <- Zlt_Qlt in H1, H2. lia.
Qed.

Lemma ToIntegerOrInfinity_add_Z (z : Z) (x : Q) :
  0 <= z -> (0 <= x)%Q -> ToIntegerOrInfinity (inject_Z z + x) = z + Qfloor x.
Proof.
  intros Hz Hx. unfold ToIntegerOrInfinity.
  assert (Hle : (0 <= inject_Z z + x)%Q).
  { assert (Hz' : (0 <= inject_Z z)%Q) by (rewrite Zle_Qle in Hz; exact Hz).
    lra. }
  apply Qle_bool_iff in Hle. rewrite Hle. apply Qfloor_add_Z.
Qed.

(** ** Dates: [d.setDate(d.getDate() + x)] moves [d] by whole days *)

Section Dates.
Import JSDate.

Lemma DayFromYear_estimate (d n : Z) :
  146097 * n <= 400 * d -> DayFromYear (1970 + n - 1) <= d.
Proof.
  intros H. unfold DayFromYear.
  replace (1970 + n - 1 - 1970) with (n - 1) by lia.
  replace (1970 + n - 1 - 1969) with n by lia.
  replace (1970 + n - 1 - 1901) with (n + 68) by lia.
  replace (1970 + n - 1 - 1601) with (n + 368) by lia.
  pose proof (Z.div_mod n 4 ltac:(lia)).
  pose proof (Z.mod_pos_bound n 4 ltac:(lia)).
  pose proof (Z.div_mod (n + 68) 100 ltac:(lia)).
  pose proof (Z.mod_pos_bound (n + 68) 100 ltac:(lia)).
  pose proof (Z.div_mod (n + 368) 400 ltac:(lia)).
  pose proof (Z.mod_pos_bound (n + 368) 400 ltac:(lia)).
  lia.
Qed.

Lemma YearFromTime_le (t : Z) : DayFromYear (YearFromTime t) <= Day t.
Proof.
  unfold YearFromTime. generalize (Day t) as d. intros d.
  pose proof (Z.mul_div_le (d * 400) 146097 ltac:(lia)) as Hn.
  set (n := d * 400 / 146097) in *.
  destruct (Z.ltb_spec d (DayFromYear (1970 + n))) as [Hlt|Hge].
  - apply DayFromYear_estimate. lia.
  - destruct (Z.leb_spec (DayFromYear (1970 + n + 1)) d); lia.
Qed.

Lemma MonthFromTime_range (t : Z) : 0 <= MonthFromTime t <= 11.
Proof.
  unfold MonthFromTime.
  repeat match goal with
         | |- context [if ?b then _ else _] => destruct b
         end; lia.
Qed.

Lemma InLeapYear_range (t : Z) : 0 <= InLeapYear t <= 1.
Proof. unfold InLeapYear. destruct (_ =? _); lia. Qed.

Lemma DateFromTime_pos (t : Z) : 1 <= DateFromTime t.
Proof.
  unfold DateFromTime, MonthFromTime.
  pose proof (YearFromTime_le t) as Hy.
  pose proof (InLeapYear_range t) as Hl.
  assert (Hd : 0 <= DayWithinYear t) by (unfold DayWithinYear; lia).
  revert Hd Hl. generalize (DayWithinYear t) (InLeapYear t). intros d l Hd Hl.
  repeat match goal with
         | |- context [if ?a <? ?b then _ else _] =>
             destruct (Z.ltb_spec a b)
         end; simpl; lia.
Qed.

Lemma MakeDay_same_month (t : Z) (date : Q) :
  MakeDay (YearFromTime t) (MonthFromTime t) date
  = Day t - DateFromTime t + ToIntegerOrInfinity date.
Proof.
  pose proof (MonthFromTime_range t) as Hm.
  unfold MakeDay, DateFromTime, DayWithinYear, InLeapYear.
  rewrite (Z.div_small (MonthFromTime t) 12) by lia.
  rewrite (Z.mod_small (MonthFromTime t) 12) by lia.
  rewrite Z.add_0_r. lia.
Qed.

Lemma setDate_getDate_plus (LocalTZA t : Z) (x : Q) :
  (0 <= x)%Q ->
  setDate LocalTZA t (inject_Z (getDate LocalTZA t) + x)
  = t + msPerDay * Qfloor x.
Proof.
  intros Hx. unfold setDate, getDate, MakeDate, UTC.
  rewrite MakeDay_same_month.
  pose proof (DateFromTime_pos (LocalTime LocalTZA t)) as Hd.
  rewrite ToIntegerOrInfinity_add_Z by (lia || assumption).
  unfold Day, TimeWithinDay, LocalTime.
  pose proof (Z.div_mod (t + LocalTZA) msPerDay) as Hdm.
  unfold msPerDay in *. lia.
Qed.

End Dates.

(** ** The scheduling step of the review route *)

Ltac break_if :=
  repeat match goal with
         | |- context [if ?b then _ else _] => destruct b eqn:?
         end.

Ltac fields :=
  cbv beta iota zeta
      delta [newStage newInterval newEaseFactor newConsecutiveCorrect
             sm2_interval sm2_repetition sm2_easeFactor sm2_stage
             sm2_consecutiveCorrect q_card repetition nextShowTime].

(** Bounds of a [Math.min] or [Math.max] of two bounded numbers. *)
Ltac minmax_bound :=
  unfold Math.min, Math.max;
  first
    [ apply Q.min_glb; lra
    | apply Q.max_lub; lra
    | apply Q.min_le_iff; ((left; lra) || (right; lra))
    | apply Q.max_le_iff; ((left; lra) || (right; lra))
    | lra ].

(** The new ease factor does not depend on the stage. *)
Lemma schedule_easeFactor (c : Card) (quality : Q) (wasCorrect : bool) :
  newEaseFactor (schedule c quality wasCorrect)
  = if wasCorrect then
      if Qgeb quality 4 then Math.min 2.8 (easeFactor c + 0.1)
      else if Qeqb quality 3 then Math.min 2.8 (easeFactor c + 0.05)
      else Math.max 1.3 (easeFactor c - 0.1)
    else Math.max 1.3 (easeFactor c - 0.2).
Proof.
  unfold schedule. destruct wasCorrect, (stage c); break_if; reflexivity.
Qed.

Lemma calculateSM2_easeFactor (card : QueueCard) (quality : Q) :
  sm2_easeFactor (calculateSM2 card quality)
  = if Qgeb quality 3 then
      if Qeqb quality 4 then Math.min 2.5 (easeFactor (q_card card) + 0.1)
      else if Qeqb quality 3 then Math.min 2.5 (easeFactor (q_card card) + 0.05)
      else easeFactor (q_card card)
    else if Qeqb quality 1 then Math.max 1.3 (easeFactor (q_card card) - 0.2)
    else Math.max 1.3 (easeFactor (q_card card) - 0.1).
Proof.
  unfold calculateSM2. destruct (stage (q_card card)); break_if; reflexivity.
Qed.

(** The new interval of the review route is never below a quarter of a
    day. *)
Lemma schedule_interval_min (c : Card) (quality : Q) (wasCorrect : bool) :
  (0.25 <= newInterval (schedule c quality wasCorrect))%Q.
Proof.
  unfold schedule. destruct wasCorrect, (stage c); break_if; fields;
    minmax_bound.
Qed.

(** On success the stage never moves back, and the interval of a card that
    is or becomes [review] or [mastered] is at least one day. *)
Lemma schedule_review_interval (c : Card) (quality : Q) :
  stage c = review ->
  newInterval (schedule c quality true)
  = Math.max 1 (Math.round (interval c * easeFactor c)).
Proof.
  intros Hs. unfold schedule. rewrite Hs. break_if; reflexivity.
Qed.

(** What the review route answers: the card as updated, due
    [floor newInterval] whole days after [now], reviewed once more. *)
Lemma study_review_ok (env : Env) (db : Db) (body : Review)
    (r : ReviewResult) (db' : Db) :
  study_review env db body = (Ok200 r, db') ->
  exists card,
    findUnique (cardId body) (cards db) = Some card
    /\ let s := schedule card (quality body) (wasCorrect body) in
       stage (r_card r) = newStage s
       /\ interval (r_card r) = newInterval s
       /\ easeFactor (r_card r) = newEaseFactor s
       /\ consecutiveCorrect (r_card r) = newConsecutiveCorrect s
       /\ reviewCount (r_card r) = reviewCount card + 1
       /\ nextReviewAt (r_card r) = r_nextReviewAt r
       /\ r_interval r = newInterval s
       /\ r_nextReviewAt r
          = now env + JSDate.msPerDay * Qfloor (newInterval s).
Proof.
  unfold study_review, reviewSchema. intros H.
  destruct (Qle_bool 0 (quality body) && Qle_bool (quality body) 5);
    [|discriminate].
  destruct body as [cid sid q rt w]. cbn [cardId quality wasCorrect] in *.
  match type of H with
  | (if negb ?b then _ else _) = _ => destruct b; cbn [negb] in H
  end; [|discriminate].
  destruct (findUnique cid (cards db)) as [card|] eqn:Hc; [|discriminate].
  exists card. split; [reflexivity|].
  injection H as Hr _. subst r. cbn.
  repeat split; try reflexivity.
  apply setDate_getDate_plus.
  pose proof (schedule_interval_min card q w). lra.
Qed.

(** C2.  The scenario of the specification: a card in [learning] with
    interval 1, ease factor 2.5 and one correct answer in a row, reviewed
    with quality 4 and [wasCorrect = true], becomes a [review] card with
    interval 5, ease factor 2.6 and two correct answers in a row. *)
Theorem schedule_learning_scenario (c : Card) :
  stage c = learning ->
  (interval c == 1)%Q ->
  (easeFactor c == 2.5)%Q ->
  consecutiveCorrect c = 1 ->
  newStage (schedule c 4 true) = review
  /\ (newInterval (schedule c 4 true) == 5)%Q
  /\ (newEaseFactor (schedule c 4 true) == 2.6)%Q
  /\ newConsecutiveCorrect (schedule c 4 true) = 2.
Proof.
  intros Hs Hi He Hc.
  split; [|split; [|split]].
  - unfold schedule. rewrite Hs, Hc. reflexivity.
  - unfold schedule. rewrite Hs, Hc. reflexivity.
  - rewrite schedule_easeFactor.
    change (Qgeb 4 4) with true. cbv iota.
    unfold Math.min. rewrite Q.min_r by lra. lra.
  - unfold schedule. rewrite Hs, Hc. reflexivity.
Qed.

Lemma schedule_learning_scenario_witness :
  newStage (schedule Sample.learningCard 4 true) = review
  /\ (newInterval (schedule Sample.learningCard 4 true) == 5)%Q
  /\ (newEaseFactor (schedule Sample.learningCard 4 true) == 2.6)%Q
  /\ newConsecutiveCorrect (schedule Sample.learningCard 4 true) = 2.
Proof.
  apply (schedule_learning_scenario Sample.learningCard); reflexivity.
Defined.

(** C4.  One review keeps the ease factor within [1.3, 2.8]: for every
    card whose ease factor lies in that range and every rating, the ease
    factor computed by the review route and the one computed by
    [calculateSM2] lie in the range too. *)
Theorem easeFactor_bounds_preserved (c : Card) (quality : Q)
    (wasCorrect : bool) (rep shown : option Z) :
  (1.3 <= easeFactor c)%Q ->
  (easeFactor c <= 2.8)%Q ->
  ((1.3 <= newEaseFactor (schedule c quality wasCorrect))%Q
   /\ (newEaseFactor (schedule c quality wasCorrect) <= 2.8)%Q)
  /\ ((1.3 <= sm2_easeFactor (calculateSM2 (mkQueueCard c rep shown) quality))%Q
      /\ (sm2_easeFactor (calculateSM2 (mkQueueCard c rep shown) quality)
          <= 2.8)%Q).
Proof.
  intros Hlo Hhi. rewrite schedule_easeFactor, calculateSM2_easeFactor.
  cbn [q_card].
  repeat split; break_if; minmax_bound.
Qed.

Lemma easeFactor_bounds_preserved_witness :
  ((1.3 <= newEaseFactor (schedule Sample.learningCard 4 true))%Q
   /\ (newEaseFactor (schedule Sample.learningCard 4 true) <= 2.8)%Q)
  /\ ((1.3 <= sm2_easeFactor
                (calculateSM2 (mkQueueCard Sample.learningCard None None) 4))%Q
      /\ (sm2_easeFactor
            (calculateSM2 (mkQueueCard Sample.learningCard None None) 4)
          <= 2.8)%Q).
Proof.
  apply (easeFactor_bounds_preserved Sample.learningCard 4 true None None);
    vm_compute; discriminate.
Defined.

(** C10.  In the review route, the success step that takes a card from
    [review] to [mastered] computes the interval with the formula of the
    [review] stage, [max(1, round(interval * easeFactor))]; a card with
    interval 1 and ease factor 1.3 so enters [mastered] with an interval of
    one day; the floor of seven days holds for the reviews of cards that are
    [mastered] already. *)
Theorem mastered_entry_interval :
  (forall (c : Card) (quality : Q),
      stage c = review ->
      newStage (schedule c quality true) = mastered ->
      newInterval (schedule c quality true)
      = Math.max 1 (Math.round (interval c * easeFactor c)))
  /\ (forall (c : Card) (quality : Q),
         stage c = review ->
         (interval c == 1)%Q ->
         (easeFactor c == 1.3)%Q ->
         2 <= consecutiveCorrect c ->
         (4 <= quality)%Q ->
         newStage (schedule c quality true) = mastered
         /\ (newInterval (schedule c quality true) == 1)%Q
         /\ (newInterval (schedule c quality true) < 7)%Q)
  /\ (forall (c : Card) (quality : Q),
         stage c = mastered ->
         newStage (schedule c quality true) = mastered
         /\ (7 <= newInterval (schedule c quality true))%Q).
Proof.
  split; [|split].
  - intros c quality Hs _. apply schedule_review_interval, Hs.
  - intros c quality Hs Hi He Hc Hq.
    assert (Hint : (newInterval (schedule c quality true) == 1)%Q).
    { rewrite schedule_review_interval by exact Hs.
      unfold Math.max, Math.round.
      assert (Hr : Qfloor (interval c * easeFactor c + (1 # 2)) = 1).
      { rewrite (Qfloor_comp _ ((13 # 10) + (1 # 2))%Q);
          [reflexivity | rewrite Hi, He; lra]. }
      rewrite Hr. reflexivity. }
    split; [|split; [exact Hint | rewrite Hint; reflexivity]].
    unfold schedule. rewrite Hs.
    apply Qgeb_true in Hq. rewrite Hq.
    unfold or_zero. destruct (Z.eqb_spec (consecutiveCorrect c) 0); [lia|].
    destruct (Z.leb_spec 3 (consecutiveCorrect c + 1)); [reflexivity|lia].
  - intros c quality Hs. unfold schedule. rewrite Hs.
    split; break_if; fields; try reflexivity; apply Q.le_max_l.
Qed.

Lemma mastered_entry_interval_witness :
  newInterval (schedule Sample.reviewCard 4 true)
  = Math.max 1 (Math.round (interval Sample.reviewCard
                            * easeFactor Sample.reviewCard))
  /\ (newStage (schedule Sample.reviewCard 4 true) = mastered
      /\ (newInterval (schedule Sample.reviewCard 4 true) == 1)%Q
      /\ (newInterval (schedule Sample.reviewCard 4 true) < 7)%Q)
  /\ (newStage
        (schedule (mkCard "card-4" "deck-1" mastered 1 1.3 0 9 5 0) 0 true)
      = mastered
      /\ (7 <= newInterval
                 (schedule (mkCard "card-4" "deck-1" mastered 1 1.3 0 9 5 0)
                           0 true))%Q).
Proof.
  split; [|split].
  - apply (proj1 mastered_entry_interval Sample.reviewCard 4%Q);
      reflexivity.
  - apply (proj1 (proj2 mastered_entry_interval) Sample.reviewCard 4%Q);
      try reflexivity; vm_compute; discriminate.
  - apply (proj2 (proj2 mastered_entry_interval)
             (mkCard "card-4" "deck-1" mastered 1 1.3 0 9 5 0) 0%Q);
      reflexivity.
Defined.

(** C3.  The review route adds the new interval to the date with
    [setDate(getDate() + newInterval)], which drops the fraction of a day:
    a failed review of a [new] card gets the interval 0.25 (six hours) and a
    [nextReviewAt] equal to [now], not [now] plus six hours.  The review
    count goes up by one. *)
Theorem study_review_drops_fraction_of_day :
  exists (r : ReviewResult) (db' : Db),
    study_review Sample.env Sample.db Sample.failedReview = (Ok200 r, db')
    /\ (r_interval r == 0.25)%Q
    /\ r_nextReviewAt r = now Sample.env
    /\ nextReviewAt (r_card r) = now Sample.env
    /\ now Sample.env + 6 * Sample.hour <> r_nextReviewAt r
    /\ reviewCount (r_card r) = reviewCount Sample.newCard + 1.
Proof.
  eexists. eexists. split; [vm_compute; reflexivity|].
  cbn [r_interval r_nextReviewAt r_card nextReviewAt reviewCount].
  repeat split; vm_compute; congruence.
Qed.

(** ** The review route against [calculateSM2] *)

Lemma Qeqb_false_lt (x y : Q) : (x < y \/ y < x)%Q -> Qeqb x y = false.
Proof.
  intros H. destruct (Qeqb x y) eqn:E; [|reflexivity].
  apply Qeqb_true in E. destruct H; lra.
Qed.

(** Decides the tests on a rating from what is known about it. *)
Ltac rating_tests :=
  repeat match goal with
         | |- context [Qgeb ?x ?y] =>
             first [ rewrite (proj2 (Qgeb_true x y)) by lra
                   | rewrite (proj2 (Qgeb_false x y)) by lra ]
         | |- context [Qeqb ?x ?y] =>
             first [ rewrite (proj2 (Qeqb_true x y)) by lra
                   | rewrite (Qeqb_false_lt x y)
                       by ((left; lra) || (right; lra)) ]
         end.

Lemma or_zero_id (n : Z) : or_zero n = n.
Proof. unfold or_zero. destruct (Z.eqb_spec n 0); congruence. Qed.

(** C1 (counterexample).  The two schedulers differ on the scenario of the
    specification: the review route gives the card five days,
    [calculateSM2] four. *)
Lemma schedule_calculateSM2_differ :
  ~ same_result (schedule Sample.learningCard 4 true)
                (calculateSM2 (mkQueueCard Sample.learningCard None None) 4).
Proof.
  intros (_ & Hi & _). vm_compute in Hi. discriminate.
Qed.

(** C1 (amended).  With [wasCorrect] set as the study page sets it
    ([quality >= 3]), the review route and [calculateSM2] compute the same
    number of correct answers in a row for every card and rating; for a card
    in stage [new] and a rating of 1, 3 or 4 they compute the same stage and
    interval too, and the same ease factor when the rating is 1 or the ease
    factor of the card is at most 2.4. *)
Theorem schedule_calculateSM2_agree (c : Card) (rep shown : option Z)
    (quality : Q) (wasCorrect : bool) :
  wasCorrect = Qgeb quality 3 ->
  newConsecutiveCorrect (schedule c quality wasCorrect)
  = sm2_consecutiveCorrect (calculateSM2 (mkQueueCard c rep shown) quality)
  /\ (stage c = new ->
      (quality == 1 \/ quality == 3 \/ quality == 4)%Q ->
      newStage (schedule c quality wasCorrect)
      = sm2_stage (calculateSM2 (mkQueueCard c rep shown) quality)
      /\ (newInterval (schedule c quality wasCorrect)
          == sm2_interval (calculateSM2 (mkQueueCard c rep shown) quality))%Q
      /\ ((quality == 1 \/ easeFactor c <= 2.4)%Q ->
          same_result (schedule c quality wasCorrect)
                      (calculateSM2 (mkQueueCard c rep shown) quality))).
Proof.
  intros ->. split.
  - unfold schedule, calculateSM2. rewrite or_zero_id. cbn [q_card].
    destruct (Qgeb quality 3), (stage c); break_if; reflexivity.
  - intros Hs Hq. unfold same_result, schedule, calculateSM2.
    cbn [q_card]. rewrite Hs, or_zero_id.
    destruct Hq as [Hq | [Hq | Hq]]; rating_tests; fields;
      unfold Math.min, Math.max;
      (split; [reflexivity | split; [reflexivity|]]);
      (intros [Hq1 | He]; [try lra|]);
      repeat split; try reflexivity;
      rewrite !Q.min_r by lra; reflexivity.
Qed.

Lemma schedule_calculateSM2_agree_witness :
  newConsecutiveCorrect (schedule Sample.newCard 1 false)
  = sm2_consecutiveCorrect
      (calculateSM2 (mkQueueCard Sample.newCard None None) 1)
  /\ same_result (schedule Sample.newCard 1 false)
                 (calculateSM2 (mkQueueCard Sample.newCard None None) 1).
Proof.
  pose proof (schedule_calculateSM2_agree Sample.newCard None None 1%Q false
                eq_refl) as [Hcc Hall].
  split; [exact Hcc|].
  apply Hall; [reflexivity | left; reflexivity | left; reflexivity].
Defined.

(** ** The cards of a session and the due set *)

Lemma prisma_take_subseteq {A : Type} (n : option Z) (rows : list A) :
  prisma_take n rows ⊆ rows.
Proof.
  unfold prisma_take. destruct n as [n|]; [|reflexivity].
  destruct (0 <=? n); [apply subseteq_take | apply subseteq_drop].
Qed.

Lemma findMany_elem_of (where_ : Card -> Prop)
    `{!forall c, Decision (where_ c)} (n : option Z) (rows : list Card)
    (c : Card) :
  c ∈ findMany where_ n rows -> where_ c /\ c ∈ rows.
Proof.
  unfold findMany. intros Hin. apply prisma_take_subseteq in Hin.
  rewrite merge_sort_Permutation in Hin.
  apply list_elem_of_filter in Hin. exact Hin.
Qed.

Lemma fetchStudyData_queue (cards_ : list Card) :
  studyQueue (fetchStudyData cards_) = initialQueue cards_.
Proof. destruct cards_; reflexivity. Qed.

(** C5 (counterexample).  A session starts with a card that is not due: the
    learning card of [Sample.db] is due a day after the session starts, and
    is in the queue. *)
Lemma session_queue_holds_card_not_due :
  exists (session : StudySession) (cards_ : list Card) (db' : Db),
    study_session Sample.env Sample.db Sample.startBody
    = (Ok200 (session, cards_), db')
    /\ exists card : QueueCard,
        card ∈ studyQueue (fetchStudyData cards_)
        /\ ~ due (now Sample.env) (q_card card).
Proof.
  eexists. eexists. eexists. split; [vm_compute; reflexivity|].
  eexists. split.
  - cbn. do 2 apply list_elem_of_further. apply list_elem_of_here.
  - unfold due. cbn. intros [H | H]; [lia | discriminate].
Qed.

(** C5 (amended).  Every card in the queue a session starts with is a card
    of the deck of the session that is not mastered, taken from the card
    table with its review counter set to 0; whether it is due plays no
    part. *)
Theorem session_queue_not_mastered (env : Env) (db : Db)
    (body : StartStudySession) (session : StudySession)
    (cards_ : list Card) (db' : Db) (card : QueueCard) :
  study_session env db body = (Ok200 (session, cards_), db') ->
  card ∈ studyQueue (fetchStudyData cards_) ->
  stage (q_card card) <> mastered
  /\ deckId (q_card card) = s_deckId body
  /\ exists c : Card,
      c ∈ cards db
      /\ card
         = mkQueueCard
             (mkCard (card_id c) (deckId c) (stage c) (interval c)
                     (easeFactor c) (nextReviewAt c) 0 (consecutiveCorrect c)
                     (createdAt c))
             None None.
Proof.
  unfold study_session, startStudySessionSchema. intros H Hin.
  destruct (List.find _ (decks db)); [|discriminate].
  injection H as _ Hcards _. subst cards_.
  rewrite fetchStudyData_queue in Hin.
  unfold initialQueue in Hin. apply list_elem_of_fmap in Hin as (c & -> & Hc).
  apply (findMany_elem_of (notMastered (s_deckId body))
           (Some (default 20 (s_maxCards body)))) in Hc
    as [[Hdeck Hstage] Hc].
  cbn. split; [exact Hstage | split; [exact Hdeck|]].
  exists c. split; [exact Hc | reflexivity].
Qed.

Lemma session_queue_not_mastered_witness :
  stage (q_card (mkQueueCard
                   (mkCard "card-1" "deck-1" learning 1 2.5
                           (1700000000000 + 24 * Sample.hour) 0 1 1690000000000)
                   None None)) <> mastered.
Proof.
  refine (proj1 (session_queue_not_mastered Sample.env Sample.db
                   Sample.startBody
                   (mkStudySession "session-1" "deck-1" "mixed")
                   [Sample.newCard; Sample.reviewCard; Sample.learningCard]
                   _ _ _ _)).
  - vm_compute. reflexivity.
  - cbn. do 2 apply list_elem_of_further. apply list_elem_of_here.
Defined.

(** C6 (counterexample).  At the time [now], the due route returns the card
    due at [now] as well as the one due before: the answer is not the single
    card due before. *)
Lemma study_due_returns_card_due_now :
  due_cards (study_due Sample.env Sample.dueDb None) <> [Sample.dueBefore].
Proof. vm_compute. discriminate. Qed.

(** C6 (amended).  Of three cards, none in stage [new], due at [now + 1],
    [now - 1] and [now], the due route without a limit returns the card due
    at [now - 1] first and the card due at [now] second, and only these:
    a card is due when [nextReviewAt <= now]. *)
Theorem study_due_at_boundary (env : Env) (db : Db) (c1 c2 c3 : Card) :
  cards db = [c1; c2; c3] ->
  stage c1 <> new -> stage c2 <> new -> stage c3 <> new ->
  nextReviewAt c1 = now env + 1 ->
  nextReviewAt c2 = now env - 1 ->
  nextReviewAt c3 = now env ->
  due_cards (study_due env db None) = [c2; c3]
  /\ totalDue (study_due env db None) = 2%nat.
Proof.
  intros Hdb H1 H2 H3 T1 T2 T3.
  assert (Hf : filter (due (now env)) (cards db) = [c2; c3]).
  { rewrite Hdb.
    rewrite filter_cons_False by (unfold due; intros [?|?]; [lia|congruence]).
    rewrite filter_cons_True by (unfold due; left; lia).
    rewrite filter_cons_True by (unfold due; left; lia).
    reflexivity. }
  unfold study_due, findMany, prisma_take. cbn [due_cards totalDue].
  rewrite Hf. split; [|reflexivity].
  unfold merge_sort. cbn [merge_sort_aux merge_list_to_stack merge_stack].
  rewrite list_merge_nil_r, list_merge_cons.
  rewrite decide_True by (unfold orderBy_le; left; lia).
  reflexivity.
Qed.

Lemma study_due_at_boundary_witness :
  due_cards (study_due Sample.env Sample.dueDb None)
  = [Sample.dueBefore; Sample.dueAtNow]
  /\ totalDue (study_due Sample.env Sample.dueDb None) = 2%nat.
Proof.
  apply (study_due_at_boundary Sample.env Sample.dueDb Sample.dueAfter
           Sample.dueBefore Sample.dueAtNow);
    first [reflexivity | discriminate].
Defined.

(** ** The queue of the study page *)

Lemma delete_insert_same {A : Type} (l : list A) (i : nat) (x : A) :
  delete i (<[i:=x]> l) = delete i l.
Proof.
  revert i. induction l as [|a l IH]; intros [|i]; simpl; try reflexivity.
  f_equal. apply IH.
Qed.

Lemma mod_next (i n : nat) :
  (i < n)%nat ->
  ((i + 1) mod n)%nat = if Nat.leb n (i + 1) then 0%nat else (i + 1)%nat.
Proof.
  intros Hi. destruct (Nat.leb_spec n (i + 1)) as [Hle|Hlt].
  - assert (i + 1 = n)%nat as -> by lia. apply Nat.Div0.mod_same.
  - apply Nat.mod_small. exact Hlt.
Qed.

(** [calculateStageProgress] does not count the cards in stage [mastered]:
    taking such a card out of the list changes nothing. *)
Lemma calculateStageProgress_delete (l : list Card) (i : nat) (c : Card)
    (masteredCount : Z) :
  l !! i = Some c ->
  stage c = mastered ->
  calculateStageProgress (delete i l) masteredCount
  = calculateStageProgress l masteredCount.
Proof.
  unfold calculateStageProgress.
  generalize (mkStageProgress 0 0 0 masteredCount) as acc.
  revert i. induction l as [|a l IH]; intros [|i] acc Hl Hs;
    try discriminate; simpl in *.
  - injection Hl as ->. rewrite Hs. reflexivity.
  - apply IH; assumption.
Qed.

(** A review without a current card changes nothing. *)
Lemma handleCardReview_none (st : State) (quality responseTime : Q)
    (wasCorrect submitted : bool) :
  studyQueue st !! currentCardIndex st = None ->
  handleCardReview st quality responseTime wasCorrect submitted = st.
Proof. unfold handleCardReview. intros ->. reflexivity. Qed.

(** The queue and the index after a review, whichever block ran. *)
Lemma handleCardReview_queue (st : State) (quality responseTime : Q)
    (wasCorrect submitted : bool) (card : QueueCard) :
  studyQueue st !! currentCardIndex st = Some card ->
  studyQueue (handleCardReview st quality responseTime wasCorrect submitted)
  = if bool_decide (sm2_stage (calculateSM2 card quality) = mastered)
    then delete (currentCardIndex st) (studyQueue st)
    else <[currentCardIndex st := assignSM2 card (calculateSM2 card quality)]>
           (studyQueue st).
Proof.
  unfold handleCardReview. intros ->.
  destruct (_ && submitted), (bool_decide _);
    cbn [studyQueue]; rewrite ?delete_insert_same; reflexivity.
Qed.

Lemma handleCardReview_index (st : State) (quality responseTime : Q)
    (wasCorrect submitted : bool) (card : QueueCard) :
  studyQueue st !! currentCardIndex st = Some card ->
  currentCardIndex
    (handleCardReview st quality responseTime wasCorrect submitted)
  = if bool_decide (sm2_stage (calculateSM2 card quality) = mastered)
    then
      if Nat.leb (length (studyQueue st) - 1) (currentCardIndex st)
         && Nat.ltb 0 (length (studyQueue st) - 1)
      then 0%nat else currentCardIndex st
    else
      if Nat.leb (length (studyQueue st)) (currentCardIndex st + 1)
      then 0%nat else (currentCardIndex st + 1)%nat.
Proof.
  intros Hc. pose proof (lookup_lt_Some _ _ _ Hc) as Hlt.
  unfold handleCardReview. rewrite Hc.
  destruct (_ && submitted), (bool_decide _); cbn [currentCardIndex];
    rewrite ?delete_insert_same, ?length_insert, ?length_delete, ?mod_next
      by (assumption || eauto);
    reflexivity.
Qed.

(** After a review the current card exists, unless the queue is empty. *)
Lemma handleCardReview_current (st : State) (quality responseTime : Q)
    (wasCorrect submitted : bool) (card : QueueCard) :
  studyQueue st !! currentCardIndex st = Some card ->
  let st' := handleCardReview st quality responseTime wasCorrect submitted in
  studyQueue st' = [] \/ (currentCardIndex st' < length (studyQueue st'))%nat.
Proof.
  intros Hc st'. subst st'.
  pose proof (lookup_lt_Some _ _ _ Hc) as Hlt.
  rewrite (handleCardReview_queue _ _ _ _ _ _ Hc),
          (handleCardReview_index _ _ _ _ _ _ Hc).
  destruct (bool_decide _).
  - destruct (delete (currentCardIndex st) (studyQueue st)) eqn:E;
      [left; reflexivity | right].
    rewrite <- E, length_delete by eauto.
    assert (Hlen : (length (delete (currentCardIndex st) (studyQueue st))
                    = length (studyQueue st) - 1)%nat)
      by (apply length_delete; eauto).
    rewrite E in Hlen. simpl in Hlen.
    destruct (Nat.leb_spec (length (studyQueue st) - 1) (currentCardIndex st));
      destruct (Nat.ltb_spec 0 (length (studyQueue st) - 1));
      cbn [andb]; lia.
  - right. rewrite length_insert.
    destruct (Nat.leb_spec (length (studyQueue st)) (currentCardIndex st + 1));
      lia.
Qed.

(** The statistics after a review do not depend on the block that ran. *)
Lemma handleCardReview_stats (st : State) (quality responseTime : Q)
    (wasCorrect : bool) :
  sessionStats (handleCardReview st quality responseTime wasCorrect false)
  = sessionStats (handleCardReview st quality responseTime wasCorrect true).
Proof.
  unfold handleCardReview.
  destruct (studyQueue st !! currentCardIndex st) as [card|] eqn:Hc;
    [|reflexivity].
  pose proof (lookup_lt_Some _ _ _ Hc) as Hlt.
  rewrite andb_false_r, andb_true_r.
  destruct (validReviewData _ _ _); [|reflexivity].
  case_bool_decide as Hm; cbn [sessionStats]; [|reflexivity].
  f_equal. rewrite list_fmap_delete.
  apply (calculateStageProgress_delete _ _
           (q_card (assignSM2 card (calculateSM2 card quality)))).
  - rewrite list_lookup_fmap, list_lookup_insert_eq by exact Hlt. reflexivity.
  - exact Hm.
Qed.

(** C7.  A review of the current card takes the card out of the queue
    exactly when its new stage is [mastered]; otherwise the card stays, with
    its new state, and the index moves to the next card, back to 0 after the
    last one.  The session is complete exactly when the queue is empty. *)
Theorem handleCardReview_placement (st : State) (quality responseTime : Q)
    (wasCorrect submitted : bool) (card : QueueCard) :
  studyQueue st !! currentCardIndex st = Some card ->
  let result := calculateSM2 card quality in
  let st' := handleCardReview st quality responseTime wasCorrect submitted in
  (sm2_stage result = mastered ->
   studyQueue st' = delete (currentCardIndex st) (studyQueue st))
  /\ (sm2_stage result <> mastered ->
      studyQueue st'
      = <[currentCardIndex st := assignSM2 card result]> (studyQueue st)
      /\ studyQueue st' !! currentCardIndex st = Some (assignSM2 card result)
      /\ currentCardIndex st'
         = if Nat.ltb (currentCardIndex st + 1) (length (studyQueue st))
           then (currentCardIndex st + 1)%nat else 0%nat)
  /\ ((length (studyQueue st') < length (studyQueue st))%nat
      <-> sm2_stage result = mastered)
  /\ (isSessionComplete st' = true <-> studyQueue st' = []).
Proof.
  intros Hc result st'. subst result st'.
  pose proof (lookup_lt_Some _ _ _ Hc) as Hlt.
  rewrite (handleCardReview_queue _ _ _ _ _ _ Hc),
          (handleCardReview_index _ _ _ _ _ _ Hc).
  unfold isSessionComplete.
  rewrite (handleCardReview_queue _ _ _ _ _ _ Hc).
  case_bool_decide as Hm.
  - split; [reflexivity|]. split; [congruence|]. split.
    + rewrite length_delete by eauto. split; [intros _; exact Hm | lia].
    + rewrite Nat.eqb_eq. apply length_zero_iff_nil.
  - split; [congruence|]. split; [|split].
    + intros _. split; [reflexivity|]. split.
      * apply list_lookup_insert_eq. exact Hlt.
      * destruct (Nat.leb_spec (length (studyQueue st))
                               (currentCardIndex st + 1));
          destruct (Nat.ltb_spec (currentCardIndex st + 1)
                                 (length (studyQueue st)));
          lia || reflexivity.
    + rewrite length_insert. split; [lia | congruence].
    + rewrite Nat.eqb_eq. apply length_zero_iff_nil.
Qed.

Lemma handleCardReview_placement_witness :
  studyQueue (handleCardReview Sample.twoCards 4 1500 true true)
  = <[0%nat := assignSM2 Sample.firstCard (calculateSM2 Sample.firstCard 4)]>
      (studyQueue Sample.twoCards)
  /\ studyQueue (handleCardReview Sample.twoCards 4 1500 true true) !! 0%nat
     = Some (assignSM2 Sample.firstCard (calculateSM2 Sample.firstCard 4))
  /\ currentCardIndex (handleCardReview Sample.twoCards 4 1500 true true)
     = 1%nat.
Proof.
  apply (handleCardReview_placement Sample.twoCards 4%Q 1500%Q true true
           Sample.firstCard eq_refl).
  vm_compute. discriminate.
Defined.

(** C9.  When a valid review cannot be persisted ([submitReview] throws),
    the queue, the index and the statistics after the review are those of
    the path on which it was persisted: the new state is written to the
    current card, the card is taken out if it is [mastered] and kept
    otherwise; the next current card exists unless the queue is empty, so
    the session goes on; the failure only sets the offline flag, which the
    other path clears. *)
Theorem handleCardReview_backend_failure (st : State)
    (quality responseTime : Q) (wasCorrect : bool) (card : QueueCard) :
  studyQueue st !! currentCardIndex st = Some card ->
  validReviewData (card_id (q_card card)) quality responseTime = true ->
  let persisted := handleCardReview st quality responseTime wasCorrect true in
  let failed := handleCardReview st quality responseTime wasCorrect false in
  studyQueue failed = studyQueue persisted
  /\ currentCardIndex failed = currentCardIndex persisted
  /\ sessionStats failed = sessionStats persisted
  /\ isOfflineMode failed = true
  /\ isOfflineMode persisted = false
  /\ studyQueue failed
     = (if bool_decide (sm2_stage (calculateSM2 card quality) = mastered)
        then delete (currentCardIndex st) (studyQueue st)
        else <[currentCardIndex st
               := assignSM2 card (calculateSM2 card quality)]> (studyQueue st))
  /\ (studyQueue failed = []
      \/ is_Some (studyQueue failed !! currentCardIndex failed)).
Proof.
  intros Hc Hvalid persisted failed. subst persisted failed.
  rewrite !(handleCardReview_queue _ _ _ _ _ _ Hc),
          !(handleCardReview_index _ _ _ _ _ _ Hc).
  split; [reflexivity|]. split; [reflexivity|].
  split; [apply handleCardReview_stats|].
  split; [|split; [|split; [reflexivity|]]].
  - unfold handleCardReview. rewrite Hc, andb_false_r.
    destruct (bool_decide _), (isOfflineMode st); reflexivity.
  - unfold handleCardReview. rewrite Hc, Hvalid. cbn [andb].
    destruct (bool_decide _), (isOfflineMode st); reflexivity.
  - pose proof (handleCardReview_current st quality responseTime wasCorrect
                  false card Hc) as Hcur.
    cbv zeta in Hcur.
    rewrite (handleCardReview_queue _ _ _ _ _ _ Hc),
            (handleCardReview_index _ _ _ _ _ _ Hc) in Hcur.
    destruct Hcur as [Hnil | Hlt]; [left; exact Hnil | right].
    apply lookup_lt_is_Some. exact Hlt.
Qed.

Lemma handleCardReview_backend_failure_witness :
  studyQueue (handleCardReview Sample.twoCards 4 1500 true false)
  = studyQueue (handleCardReview Sample.twoCards 4 1500 true true)
  /\ currentCardIndex (handleCardReview Sample.twoCards 4 1500 true false)
     = currentCardIndex (handleCardReview Sample.twoCards 4 1500 true true)
  /\ sessionStats (handleCardReview Sample.twoCards 4 1500 true false)
     = sessionStats (handleCardReview Sample.twoCards 4 1500 true true)
  /\ isOfflineMode (handleCardReview Sample.twoCards 4 1500 true false)
     = true.
Proof.
  pose proof (handleCardReview_backend_failure Sample.twoCards 4%Q 1500%Q
                true Sample.firstCard eq_refl eq_refl)
    as (Hq & Hi & Hs & Ho & _).
  repeat split; assumption.
Defined.

(** ** A session of "Easy" answers comes to an end *)

Lemma reviewsLeft_range (card : QueueCard) :
  (1 <= reviewsLeft card <= 3)%nat.
Proof. unfold reviewsLeft. destruct (stage _); break_if; lia. Qed.

Lemma totalReviewsLeft_cons (card : QueueCard) (queue : list QueueCard) :
  totalReviewsLeft (card :: queue)
  = (reviewsLeft card + totalReviewsLeft queue)%nat.
Proof. reflexivity. Qed.

Lemma totalReviewsLeft_bound (queue : list QueueCard) :
  (totalReviewsLeft queue <= 3 * length queue)%nat.
Proof.
  induction queue as [|card queue IH]; [reflexivity|].
  rewrite totalReviewsLeft_cons, length_cons.
  pose proof (reviewsLeft_range card). lia.
Qed.

Lemma totalReviewsLeft_zero (queue : list QueueCard) :
  totalReviewsLeft queue = 0%nat -> queue = [].
Proof.
  destruct queue as [|card queue]; [reflexivity|].
  rewrite totalReviewsLeft_cons. pose proof (reviewsLeft_range card). lia.
Qed.

Lemma totalReviewsLeft_insert (queue : list QueueCard) (i : nat)
    (old updated : QueueCard) :
  queue !! i = Some old ->
  (totalReviewsLeft (<[i:=updated]> queue) + reviewsLeft old
   = totalReviewsLeft queue + reviewsLeft updated)%nat.
Proof.
  revert i.
  induction queue as [|card queue IH]; intros [|i] Hi; try discriminate.
  - injection Hi as ->.
    change (<[0%nat:=updated]> (old :: queue)) with (updated :: queue).
    rewrite !totalReviewsLeft_cons. lia.
  - change (<[S i:=updated]> (card :: queue))
      with (card :: <[i:=updated]> queue).
    rewrite !totalReviewsLeft_cons. specialize (IH i Hi). lia.
Qed.

Lemma totalReviewsLeft_delete (queue : list QueueCard) (i : nat)
    (old : QueueCard) :
  queue !! i = Some old ->
  (totalReviewsLeft (delete i queue) + reviewsLeft old
   = totalReviewsLeft queue)%nat.
Proof.
  revert i.
  induction queue as [|card queue IH]; intros [|i] Hi; try discriminate.
  - injection Hi as ->.
    change (delete 0%nat (old :: queue)) with queue.
    rewrite totalReviewsLeft_cons. lia.
  - change (delete (S i) (card :: queue)) with (card :: delete i queue).
    rewrite !totalReviewsLeft_cons. specialize (IH i Hi). lia.
Qed.

(** An "Easy" answer takes the card to [mastered], or leaves it with fewer
    answers to go. *)
Lemma easy_review (card : QueueCard) (quality : Q) :
  (quality == 4)%Q ->
  0 <= consecutiveCorrect (q_card card) ->
  sm2_stage (calculateSM2 card quality) = mastered
  \/ ((reviewsLeft (assignSM2 card (calculateSM2 card quality))
       < reviewsLeft card)%nat
      /\ 0 <= consecutiveCorrect
                (q_card (assignSM2 card (calculateSM2 card quality)))).
Proof.
  destruct card as [c rep shown]. cbn [q_card]. intros Hq Hcc.
  unfold reviewsLeft, assignSM2, calculateSM2.
  rating_tests. cbn [andb q_card].
  destruct (stage c) eqn:Hs; fields; cbn [stage consecutiveCorrect].
  - right. split; lia.
  - destruct (Z.leb_spec 1 (consecutiveCorrect c + 1)); [|lia].
    fields. cbn [stage consecutiveCorrect].
    destruct (Z.leb_spec 1 (consecutiveCorrect c + 1)); [|lia].
    right. split; lia.
  - destruct (Z.leb_spec 2 (consecutiveCorrect c + 1));
      fields; cbn [stage consecutiveCorrect]; [left; reflexivity|].
    right.
    destruct (Z.leb_spec 1 (consecutiveCorrect c + 1)); [|lia].
    destruct (Z.leb_spec 1 (consecutiveCorrect c)); [lia|].
    split; lia.
  - left. reflexivity.
Qed.

Lemma easy_step (st : State) (ev : ReviewEvent) :
  wellFormed st ->
  easy ev ->
  let st' :=
    handleCardReview st (ev_quality ev) (ev_responseTime ev)
                     (ev_wasCorrect ev) (ev_submitted ev) in
  wellFormed st'
  /\ (totalReviewsLeft (studyQueue st')
      <= totalReviewsLeft (studyQueue st) - 1)%nat.
Proof.
  intros [Hidx Hall] [Hq _] st'. subst st'.
  destruct (studyQueue st !! currentCardIndex st) as [card|] eqn:Hc.
  - pose proof (handleCardReview_current st (ev_quality ev)
                  (ev_responseTime ev) (ev_wasCorrect ev) (ev_submitted ev)
                  card Hc) as Hcur.
    cbv zeta in Hcur. unfold wellFormed.
    rewrite (handleCardReview_queue _ _ _ _ _ _ Hc) in *.
    pose proof (proj1 (Forall_lookup _ _) Hall _ _ Hc) as Hcc.
    cbv beta in Hcc.
    pose proof (reviewsLeft_range card) as Hr.
    destruct (easy_review card (ev_quality ev) Hq Hcc) as [Hm | [Hless Hcc']].
    + rewrite bool_decide_true in * by exact Hm.
      split; [split; [exact Hcur | apply Forall_delete, Hall]|].
      pose proof (totalReviewsLeft_delete _ _ _ Hc). lia.
    + destruct (bool_decide _).
      * split; [split; [exact Hcur | apply Forall_delete, Hall]|].
        pose proof (totalReviewsLeft_delete _ _ _ Hc). lia.
      * split; [split; [exact Hcur | apply Forall_insert; assumption]|].
        pose proof (totalReviewsLeft_insert _ _ _
                      (assignSM2 card (calculateSM2 card (ev_quality ev))) Hc).
        lia.
  - rewrite handleCardReview_none by exact Hc.
    split; [split; assumption|].
    destruct Hidx as [Hnil | Hlt].
    + rewrite Hnil. unfold totalReviewsLeft. simpl. lia.
    + apply lookup_ge_None in Hc. lia.
Qed.

Lemma easy_session (events : list ReviewEvent) (st : State) :
  wellFormed st ->
  Forall easy events ->
  wellFormed (session events st)
  /\ (totalReviewsLeft (studyQueue (session events st))
      <= totalReviewsLeft (studyQueue st) - length events)%nat.
Proof.
  revert st. induction events as [|ev events IH]; intros st Hwf Hev.
  - simpl. split; [exact Hwf | lia].
  - apply Forall_cons in Hev as [Hev Hevs].
    destruct (easy_step st ev Hwf Hev) as [Hwf' Hless]. cbv zeta in Hwf', Hless.
    destruct (IH _ Hwf' Hevs) as [Hwf'' Hless'].
    unfold session in *. simpl. split; [exact Hwf''|]. lia.
Qed.

Lemma fetchStudyData_wellFormed (cards_ : list Card) :
  Forall (fun c => 0 <= consecutiveCorrect c) cards_ ->
  wellFormed (fetchStudyData cards_).
Proof.
  intros Hall. unfold wellFormed. rewrite fetchStudyData_queue. split.
  - destruct cards_; [left; reflexivity | right; simpl; lia].
  - unfold initialQueue. apply Forall_fmap.
    eapply Forall_impl; [exact Hall|]. intros c Hc. exact Hc.
Qed.

(** C8.  A session that starts with [N] cards, none with a negative number
    of correct answers in a row, is complete after [3 * N] "Easy" answers
    (quality 4, [wasCorrect = true]), whether or not the reviews reach the
    backend: every card is [mastered] and out of the queue after at most
    three such answers. *)
Theorem easy_session_completes (cards_ : list Card)
    (events : list ReviewEvent) :
  Forall (fun c => 0 <= consecutiveCorrect c) cards_ ->
  Forall easy events ->
  (3 * length cards_ <= length events)%nat ->
  studyQueue (session events (fetchStudyData cards_)) = []
  /\ isSessionComplete (session events (fetchStudyData cards_)) = true.
Proof.
  intros Hcards Hev Hlen.
  destruct (easy_session events _ (fetchStudyData_wellFormed _ Hcards) Hev)
    as [_ Hless].
  pose proof (totalReviewsLeft_bound (studyQueue (fetchStudyData cards_)))
    as Hbound.
  rewrite fetchStudyData_queue in Hbound at 2.
  unfold initialQueue in Hbound. rewrite length_fmap in Hbound.
  assert (Hnil : studyQueue (session events (fetchStudyData cards_)) = [])
    by (apply totalReviewsLeft_zero; lia).
  split; [exact Hnil|]. unfold isSessionComplete. rewrite Hnil. reflexivity.
Qed.

Lemma easy_session_completes_witness :
  studyQueue (session Sample.easyAnswers (fetchStudyData [Sample.newCard]))
  = []
  /\ isSessionComplete
       (session Sample.easyAnswers (fetchStudyData [Sample.newCard]))
     = true.
Proof.
  apply (easy_session_completes [Sample.newCard] Sample.easyAnswers).
  - repeat constructor. vm_compute. discriminate.
  - repeat constructor; reflexivity.
  - simpl. lia.
Defined.

(** * Further properties *)

Import Handler StudyProgress ApiService.

(** ** The review route *)

(** X1.  A correct review moves a card at most one stage forward and never
    back; a failed review never moves it forward and leaves it in [new] or
    [learning]. *)
Theorem schedule_stage_step (c : Card) (quality : Q) (wasCorrect : bool) :
  if wasCorrect
  then rank (stage c) <= rank (newStage (schedule c quality wasCorrect))
                      <= rank (stage c) + 1
  else rank (newStage (schedule c quality wasCorrect)) <= rank (stage c)
       /\ rank (newStage (schedule c quality wasCorrect)) <= 1.
Proof.
  unfold schedule. destruct wasCorrect, (stage c); break_if; fields;
    cbn [rank]; lia.
Qed.






(** What the review route does when it answers 200. *)
Lemma study_review_inv (env : Env) (db : Db) (body : Review)
    (r : ReviewResult) (db' : Db) :
  study_review env db body = (Ok200 r, db') ->
  exists (card : Card) (data : Card -> Card) (h : ReviewHistory),
    findUnique (cardId body) (cards db) = Some card
    /\ (forall c, card_id (data c) = card_id c)
    /\ r_card r = data card
    /\ cards db' = update (cardId body) data (cards db)
    /\ decks db' = decks db
    /\ studySessions db' = studySessions db
    /\ reviewHistories db' = h :: reviewHistories db
    /\ h_cardId h = cardId body
    /\ intervalBefore h = interval card
    /\ intervalAfter h = r_interval r.
Proof.
  unfold study_review, reviewSchema. intros H.
  destruct (Qle_bool 0 (quality body) && Qle_bool (quality body) 5);
    [|discriminate].
  destruct body as [cid sid q rt w]. cbn [cardId quality wasCorrect] in *.
  match type of H with
  | (if negb ?b then _ else _) = _ => destruct b; cbn [negb] in H
  end; [|discriminate].
  destruct (findUnique cid (cards db)) as [card|] eqn:Hc; [|discriminate].
  injection H as Hr Hdb. subst r db'.
  exists card,
    (fun c : Card =>
       mkCard (card_id c) (deckId c) (newStage (schedule card q w))
              (newInterval (schedule card q w))
              (newEaseFactor (schedule card q w))
              (JSDate.setDate (LocalTZA env) (now env)
                 (inject_Z (JSDate.getDate (LocalTZA env) (now env))
                  + newInterval (schedule card q w)))
              (reviewCount c + 1)
              (newConsecutiveCorrect (schedule card q w)) (createdAt c)).
  eexists. cbn.
  repeat split; reflexivity.
Qed.


Lemma findUnique_update_same (id : string) (data : Card -> Card)
    (rows : list Card) (c : Card) :
  (forall c, card_id (data c) = card_id c) ->
  findUnique id rows = Some c ->
  findUnique id (update id data rows) = Some (data c).
Proof.
  intros Hid. unfold findUnique, update.
  induction rows as [|a rows IH]; [discriminate|].
  rewrite fmap_cons. cbn [List.find]. intros H.
  destruct (bool_decide (card_id a = id)) eqn:Ea.
  - injection H as ->. rewrite Hid, Ea. reflexivity.
  - rewrite Ea. apply IH, H.
Qed.

Lemma findUnique_update_other (id id' : string) (data : Card -> Card)
    (rows : list Card) :
  id' <> id ->
  (forall c, card_id (data c) = card_id c) ->
  findUnique id' (update id data rows) = findUnique id' rows.
Proof.
  intros Hne Hid. unfold findUnique, update.
  induction rows as [|a rows IH]; [reflexivity|].
  rewrite fmap_cons. cbn [List.find].
  destruct (decide (card_id a = id)) as [Ea|Ea].
  - rewrite (bool_decide_true _ Ea), Hid, IH.
    rewrite bool_decide_false by congruence. reflexivity.
  - rewrite (bool_decide_false _ Ea), IH. reflexivity.
Qed.



(** X4.  After a review the table gives the updated card back under its
    id, every other id gives what it gave before, no row is added or
    removed, and the history has one new entry, with the interval before and
    after. *)
Theorem study_review_round_trip (env : Env) (db : Db) (body : Review)
    (r : ReviewResult) (db' : Db) :
  study_review env db body = (Ok200 r, db') ->
  findUnique (cardId body) (cards db') = Some (r_card r)
  /\ (forall id : string,
         id <> cardId body ->
         findUnique id (cards db') = findUnique id (cards db))
  /\ length (cards db') = length (cards db)
  /\ decks db' = decks db
  /\ studySessions db' = studySessions db
  /\ exists (h : ReviewHistory) (card : Card),
      reviewHistories db' = h :: reviewHistories db
      /\ findUnique (cardId body) (cards db) = Some card
      /\ h_cardId h = cardId body
      /\ intervalBefore h = interval card
      /\ intervalAfter h = interval (r_card r).
Proof.
  intros H. pose proof (study_review_ok _ _ _ _ _ H) as (card' & Hc' & Hok).
  cbv zeta in Hok. destruct Hok as (_ & Hint & _ & _ & _ & _ & Hri & _).
  apply study_review_inv in H
    as (card & data & h & Hc & Hid & Hr & Hcards & Hd & Hs & Hh & Hhc & Hb
        & Ha).
  rewrite Hcards, Hr.
  split; [apply findUnique_update_same; assumption|].
  split; [intros id Hne; apply findUnique_update_other; assumption|].
  split; [unfold update; apply length_fmap|].
  split; [exact Hd|]. split; [exact Hs|].
  exists h, card. repeat split; try assumption.
  rewrite Ha, <- Hr, Hint, Hri. reflexivity.
Qed.

Lemma study_review_round_trip_witness :
  exists (r : ReviewResult) (db' : Db),
    study_review Sample.env Sample.db Cases.correctReview = (Ok200 r, db')
    /\ findUnique "card-1" (cards db') = Some (r_card r)
    /\ length (cards db') = length (cards Sample.db).
Proof.
  destruct (study_review Sample.env Sample.db Cases.correctReview)
    as [[r| |] db'] eqn:E; try (vm_compute in E; discriminate).
  exists r, db'. split; [reflexivity|].
  pose proof (study_review_round_trip Sample.env Sample.db
                Cases.correctReview r db' E) as (Hf & _ & Hl & _).
  split; [exact Hf | exact Hl].
Defined.

(** ** The session route and the due route *)

#[local] Instance orderBy_le_total : Total orderBy_le.
Proof. intros a b. unfold orderBy_le. lia. Qed.

#[local] Instance orderBy_le_trans : Transitive orderBy_le.
Proof. intros a b c. unfold orderBy_le. lia. Qed.

Lemma prisma_take_sorted (n : option Z) (rows : list Card) :
  StronglySorted orderBy_le rows ->
  StronglySorted orderBy_le (prisma_take n rows).
Proof.
  intros Hs. unfold prisma_take. destruct n as [n|]; [|exact Hs].
  destruct (0 <=? n).
  - rewrite <- (take_drop (Z.to_nat n) rows) in Hs.
    apply StronglySorted_app_1_l in Hs. exact Hs.
  - rewrite <- (take_drop (length rows - Z.to_nat (- n)) rows) in Hs.
    apply StronglySorted_app_1_r in Hs. exact Hs.
Qed.

Lemma prisma_take_length {A : Type} (n : Z) (rows : list A) :
  length (prisma_take (Some n) rows) = (Z.abs_nat n `min` length rows)%nat.
Proof.
  unfold prisma_take. destruct (Z.leb_spec 0 n).
  - rewrite length_take. lia.
  - rewrite length_drop. lia.
Qed.

Lemma prisma_take_all {A : Type} (n : Z) (rows : list A) :
  (length rows <= Z.abs_nat n)%nat -> prisma_take (Some n) rows = rows.
Proof.
  intros Hlen. unfold prisma_take. destruct (Z.leb_spec 0 n).
  - apply take_ge. lia.
  - replace (length rows - Z.to_nat (- n))%nat with 0%nat by lia.
    reflexivity.
Qed.

Lemma findMany_sorted (where_ : Card -> Prop)
    `{!forall c, Decision (where_ c)} (n : option Z) (rows : list Card) :
  StronglySorted orderBy_le (findMany where_ n rows).
Proof.
  unfold findMany. apply prisma_take_sorted.
  apply StronglySorted_merge_sort; apply _.
Qed.

Lemma findMany_all (where_ : Card -> Prop)
    `{!forall c, Decision (where_ c)} (rows : list Card) :
  findMany where_ None rows ≡ₚ filter where_ rows.
Proof. unfold findMany, prisma_take. apply merge_sort_Permutation. Qed.


(** What the session route does when it answers 200. *)
Lemma study_session_inv (env : Env) (db : Db) (body : StartStudySession)
    (session : StudySession) (cards_ : list Card) (db' : Db) :
  study_session env db body = (Ok200 (session, cards_), db') ->
  cards_ = findMany (notMastered (s_deckId body))
                    (Some (default 20 (s_maxCards body))) (cards db)
  /\ session = mkStudySession (freshId env) (s_deckId body)
                 (default "mixed"%string (s_sessionType body))
  /\ db' = mkDb (decks db) (cards db) (session :: studySessions db)
                (reviewHistories db).
Proof.
  unfold study_session, startStudySessionSchema.
  destruct (List.find _ (decks db)); [|discriminate].
  intros [= <- <- <-]. repeat split.
Qed.

(** X5.  The cards of a new session come sorted by [nextReviewAt], then
    [createdAt]; there are at most [maxCards] of them (20 when the request
    names no maximum), and all the cards of the deck that are not mastered
    when that many fit; the route adds the session to the session table and
    changes nothing else. *)
Theorem study_session_answer (env : Env) (db : Db) (body : StartStudySession)
    (session : StudySession) (cards_ : list Card) (db' : Db) :
  study_session env db body = (Ok200 (session, cards_), db') ->
  StronglySorted orderBy_le cards_
  /\ length cards_
     = (Z.abs_nat (default 20%Z (s_maxCards body))
        `min` length (filter (notMastered (s_deckId body)) (cards db)))%nat
  /\ ((length (filter (notMastered (s_deckId body)) (cards db))
       <= Z.abs_nat (default 20%Z (s_maxCards body)))%nat ->
      cards_ ≡ₚ filter (notMastered (s_deckId body)) (cards db))
  /\ session_id session = freshId env
  /\ session_deckId session = s_deckId body
  /\ studySessions db' = session :: studySessions db
  /\ cards db' = cards db
  /\ decks db' = decks db
  /\ reviewHistories db' = reviewHistories db.
Proof.
  intros H. apply study_session_inv in H as (-> & -> & ->).
  split; [apply findMany_sorted|].
  split.
  { unfold findMany. rewrite prisma_take_length.
    rewrite (Permutation_length (merge_sort_Permutation _ _)). reflexivity. }
  split; [|repeat split].
  intros Hlen. unfold findMany. rewrite prisma_take_all.
  - apply merge_sort_Permutation.
  - rewrite (Permutation_length (merge_sort_Permutation _ _)). exact Hlen.
Qed.

Lemma study_session_answer_witness :
  exists (session : StudySession) (cards_ : list Card) (db' : Db),
    study_session Sample.env Sample.db Sample.startBody
    = (Ok200 (session, cards_), db')
    /\ StronglySorted orderBy_le cards_
    /\ length cards_ = 3%nat.
Proof.
  destruct (study_session Sample.env Sample.db Sample.startBody)
    as [[[session cards_]| |] db'] eqn:E; try (vm_compute in E; discriminate).
  exists session, cards_, db'. split; [reflexivity|].
  pose proof (study_session_answer Sample.env Sample.db Sample.startBody
                session cards_ db' E) as (Hs & Hl & _).
  split; [exact Hs | exact Hl].
Defined.



(** X7.  Without a limit the due route returns exactly the cards that are
    due, a card being due when [nextReviewAt <= now] or its stage is
    [new]: each of them once, sorted by [nextReviewAt], then [createdAt];
    [totalDue] is their number. *)
Theorem study_due_all (env : Env) (db : Db) :
  due_cards (study_due env db None) ≡ₚ filter (due (now env)) (cards db)
  /\ StronglySorted orderBy_le (due_cards (study_due env db None))
  /\ totalDue (study_due env db None)
     = length (due_cards (study_due env db None))
  /\ forall c : Card,
      c ∈ due_cards (study_due env db None)
      <-> (nextReviewAt c <= now env \/ stage c = new) /\ c ∈ cards db.
Proof.
  unfold study_due. cbn [due_cards totalDue].
  split; [apply findMany_all|]. split; [apply findMany_sorted|].
  split; [rewrite (Permutation_length (findMany_all _ _)); reflexivity|].
  intros c. rewrite (findMany_all _ _), list_elem_of_filter. reflexivity.
Qed.

(** X8.  With a limit [n >= 0] the due route returns the first [n] due
    cards of that order, all of them when there are no more than [n], while
    [totalDue] still counts every due card. *)
Theorem study_due_limit (env : Env) (db : Db) (n : Z) :
  0 <= n ->
  due_cards (study_due env db (Some n))
  = take (Z.to_nat n) (due_cards (study_due env db None))
  /\ length (due_cards (study_due env db (Some n)))
     = (Z.to_nat n `min` totalDue (study_due env db None))%nat
  /\ totalDue (study_due env db (Some n)) = totalDue (study_due env db None)
  /\ StronglySorted orderBy_le (due_cards (study_due env db (Some n))).
Proof.
  intros Hn. unfold study_due. cbn [due_cards totalDue].
  split; [|split; [|split; [reflexivity | apply findMany_sorted]]].
  - unfold findMany, prisma_take.
    destruct (Z.leb_spec 0 n); [reflexivity | lia].
  - unfold findMany. rewrite prisma_take_length.
    rewrite (Permutation_length (merge_sort_Permutation _ _)). lia.
Qed.

Lemma study_due_limit_witness :
  due_cards (study_due Sample.env Sample.dueDb (Some 1))
  = take 1 (due_cards (study_due Sample.env Sample.dueDb None))
  /\ length (due_cards (study_due Sample.env Sample.dueDb (Some 1))) = 1%nat.
Proof.
  pose proof (study_due_limit Sample.env Sample.dueDb 1 ltac:(lia))
    as (Ht & Hl & _).
  split; [exact Ht | exact Hl].
Defined.

(** ** Resetting the progress of a deck *)

Lemma filter_ext_elem_of {A : Type} (P1 P2 : A -> Prop)
    `{!forall x, Decision (P1 x)} `{!forall x, Decision (P2 x)}
    (l : list A) :
  (forall x, x ∈ l -> P1 x <-> P2 x) -> filter P1 l = filter P2 l.
Proof.
  induction l as [|a l IH]; intros Hext; [reflexivity|].
  rewrite !filter_cons.
  rewrite IH by (intros x Hx; apply Hext; apply list_elem_of_further, Hx).
  pose proof (Hext a (list_elem_of_here _ _)) as Ha.
  destruct (decide (P1 a)), (decide (P2 a)); tauto || reflexivity.
Qed.

Lemma decks_reset_progress_inv (env : Env) (db : Db) (deck : string)
    (n : nat) (db' : Db) :
  decks_reset_progress env db deck = (Ok200 n, db') ->
  n = length (filter (inDeck deck) (cards db))
  /\ db' = mkDb (decks db)
             ((fun c => if decide (inDeck deck c)
                        then resetCard (now env) c else c) <$> cards db)
             (studySessions db) (reviewHistories db).
Proof.
  unfold decks_reset_progress.
  destruct (List.find _ (decks db)); [|discriminate].
  intros [= <- <-]. split; reflexivity.
Qed.

Lemma decks_reset_progress_fresh (env : Env) (db : Db) (deck : string)
    (n : nat) (db' : Db) :
  decks_reset_progress env db deck = (Ok200 n, db') ->
  forall c' : Card,
    c' ∈ cards db' ->
    deckId c' = deck ->
    stage c' = new /\ interval c' = 1%Q /\ easeFactor c' = 2.5%Q
    /\ nextReviewAt c' = now env /\ reviewCount c' = 0
    /\ consecutiveCorrect c' = 0.
Proof.
  intros H. apply decks_reset_progress_inv in H as [-> ->].
  cbn [cards]. intros c' Hin Hdeck.
  apply list_elem_of_fmap in Hin as (c & -> & _).
  destruct (decide (inDeck deck c)) as [Hd|Hd].
  - repeat split.
  - unfold inDeck in Hd. contradiction.
Qed.

(** X9.  Resetting a deck leaves every card of the deck in stage [new] with
    interval 1, ease factor 2.5, no review, no correct answer in a row and
    due at the time of the reset; the cards of the other decks and the
    number and order of the rows stay as they were; [cardsReset] is the
    number of cards of the deck. *)
Theorem decks_reset_progress_effect (env : Env) (db : Db) (deck : string)
    (n : nat) (db' : Db) :
  decks_reset_progress env db deck = (Ok200 n, db') ->
  n = length (filter (inDeck deck) (cards db))
  /\ length (cards db') = length (cards db)
  /\ (forall (i : nat) (c : Card),
         cards db !! i = Some c ->
         exists c' : Card,
           cards db' !! i = Some c'
           /\ card_id c' = card_id c /\ deckId c' = deckId c
           /\ createdAt c' = createdAt c
           /\ (deckId c <> deck -> c' = c))
  /\ (forall c' : Card,
         c' ∈ cards db' ->
         deckId c' = deck ->
         stage c' = new /\ interval c' = 1%Q /\ easeFactor c' = 2.5%Q
         /\ nextReviewAt c' = now env /\ reviewCount c' = 0
         /\ consecutiveCorrect c' = 0)
  /\ decks db' = decks db
  /\ studySessions db' = studySessions db
  /\ reviewHistories db' = reviewHistories db.
Proof.
  intros H. pose proof (decks_reset_progress_fresh _ _ _ _ _ H) as Hfresh.
  apply decks_reset_progress_inv in H as [-> ->].
  cbn [cards decks studySessions reviewHistories].
  split; [reflexivity|]. split; [apply length_fmap|].
  split; [|split; [|repeat split]].
  - intros i c Hi. rewrite list_lookup_fmap, Hi. cbn.
    eexists. split; [reflexivity|].
    destruct (decide (inDeck deck c)) as [Hd|Hd]; cbn;
      repeat split; try reflexivity.
    intros Hne. unfold inDeck in Hd. contradiction.
  - exact Hfresh.
Qed.

Lemma decks_reset_progress_effect_witness :
  exists (n : nat) (db' : Db),
    decks_reset_progress Sample.env Sample.db "deck-1" = (Ok200 n, db')
    /\ n = 3%nat /\ length (cards db') = 3%nat.
Proof.
  destruct (decks_reset_progress Sample.env Sample.db "deck-1")
    as [[n| |] db'] eqn:E; try (vm_compute in E; discriminate).
  exists n, db'. split; [reflexivity|].
  pose proof (decks_reset_progress_effect Sample.env Sample.db "deck-1"
                n db' E) as (Hn & Hl & _).
  split; [exact Hn | exact Hl].
Defined.

(** X10.  After a reset every card of the deck is due at any time, earlier
    or later: the due route without a limit returns it, and a session on the
    deck gets all the cards of the deck when [maxCards] allows that many. *)
Theorem decks_reset_progress_then_study (env env' : Env) (db : Db)
    (deck : string) (n : nat) (db' : Db) :
  decks_reset_progress env db deck = (Ok200 n, db') ->
  (forall c' : Card,
      c' ∈ cards db' -> deckId c' = deck ->
      c' ∈ due_cards (study_due env' db' None))
  /\ (forall (body : StartStudySession) (session : StudySession)
             (cards_ : list Card) (db'' : Db),
         s_deckId body = deck ->
         (n <= Z.abs_nat (default 20%Z (s_maxCards body)))%nat ->
         study_session env' db' body = (Ok200 (session, cards_), db'') ->
         cards_ ≡ₚ filter (inDeck deck) (cards db')
         /\ length cards_ = n).
Proof.
  intros H.
  pose proof (decks_reset_progress_fresh _ _ _ _ _ H) as Hfresh.
  assert (Hfilter : filter (notMastered deck) (cards db')
                    = filter (inDeck deck) (cards db')).
  { apply filter_ext_elem_of. intros c Hc.
    unfold notMastered, inDeck. split; [tauto|]. intros Hd.
    split; [exact Hd|]. destruct (Hfresh c Hc Hd) as [-> _]. discriminate. }
  assert (Hcount : length (filter (inDeck deck) (cards db')) = n).
  { apply decks_reset_progress_inv in H as [-> ->]. cbn [cards].
    clear. induction (cards db) as [|c l IH]; [reflexivity|].
    rewrite fmap_cons, !filter_cons.
    destruct (decide (inDeck deck c)) as [Hd|Hd].
    - rewrite decide_True by exact Hd. cbn [length]. rewrite IH. reflexivity.
    - rewrite decide_False by exact Hd. exact IH. }
  split.
  - intros c' Hin Hd. unfold study_due. cbn [due_cards].
    rewrite (findMany_all _ _), list_elem_of_filter. split; [|exact Hin].
    right. apply (Hfresh c' Hin Hd).
  - intros body session cards_ db'' Hdeck Hmax Hs.
    pose proof (study_session_inv _ _ _ _ _ _ Hs) as (-> & _ & _).
    unfold findMany. rewrite Hdeck, prisma_take_all.
    + rewrite merge_sort_Permutation, Hfilter.
      split; [reflexivity | exact Hcount].
    + rewrite (Permutation_length (merge_sort_Permutation _ _)), Hfilter,
        Hcount. exact Hmax.
Qed.

Lemma decks_reset_progress_then_study_witness :
  resetCard (now Sample.env) Sample.learningCard
  ∈ due_cards
      (study_due Sample.env
         (snd (decks_reset_progress Sample.env Sample.db "deck-1")) None).
Proof.
  destruct (decks_reset_progress Sample.env Sample.db "deck-1")
    as [[n| |] db'] eqn:E; try (vm_compute in E; discriminate).
  apply (proj1 (decks_reset_progress_then_study Sample.env Sample.env
                  Sample.db "deck-1" n db' E)).
  - injection E as _ <-. apply list_elem_of_here.
  - reflexivity.
Defined.

(** X11.  A reset of an unknown deck is answered 404 and changes nothing;
    a second reset of a deck at the same time changes nothing any more. *)
Theorem decks_reset_progress_again (env : Env) (db : Db) (deck : string) :
  match decks_reset_progress env db deck with
  | (Ok200 n, db') => decks_reset_progress env db' deck = (Ok200 n, db')
  | (_, db') => db' = db
  end.
Proof.
  unfold decks_reset_progress.
  destruct (List.find _ (decks db)) eqn:E; [|reflexivity].
  cbn [decks cards studySessions reviewHistories]. rewrite E.
  f_equal; [f_equal|f_equal].
  - induction (cards db) as [|c l IH]; [reflexivity|].
    rewrite fmap_cons, !filter_cons.
    destruct (decide (inDeck deck c)) as [Hd|Hd].
    + rewrite decide_True by exact Hd. cbn [length]. rewrite IH. reflexivity.
    + rewrite decide_False by exact Hd. exact IH.
  - rewrite <- list_fmap_compose. apply list_fmap_ext.
    intros i c _. cbn.
    destruct (decide (inDeck deck c)) as [Hd|Hd].
    + rewrite decide_True by exact Hd. reflexivity.
    + rewrite decide_False by exact Hd. reflexivity.
Qed.

(** ** Completing a session *)

(** X12.  The accuracy the completion route answers is a whole number from
    0 to 100 when the correct cards are no more than the studied ones, and
    0 when no card was studied: there is no division by zero. *)
Theorem accuracy_range (body : CompleteSession) :
  ((cardsStudied body <= 0)%Q -> accuracy body = 0%Q)
  /\ ((0 <= cardsCorrect body)%Q ->
      (cardsCorrect body <= cardsStudied body)%Q ->
      exists z : Z, 0 <= z <= 100 /\ accuracy body = inject_Z z).
Proof.
  unfold accuracy. split.
  - intros Hs. apply Qle_bool_iff in Hs. rewrite Hs. reflexivity.
  - intros H0 Hle.
    destruct (Qle_bool (cardsStudied body) 0) eqn:E; cbn [negb].
    + exists 0. split; [lia | reflexivity].
    + assert (Hpos : (0 < cardsStudied body)%Q).
      { apply Qnot_le_lt. intros Hn. apply Qle_bool_iff in Hn. congruence. }
      unfold Math.round. eexists. split; [|reflexivity].
      assert (Hlo : (0 <= cardsCorrect body / cardsStudied body)%Q).
      { apply Qle_shift_div_l; [exact Hpos | lra]. }
      assert (Hhi : (cardsCorrect body / cardsStudied body <= 1)%Q).
      { apply Qle_shift_div_r; [exact Hpos | lra]. }
      split.
      * apply Z.le_trans with (Qfloor 0%Q); [reflexivity|].
        apply Qfloor_resp_le. lra.
      * apply Z.le_trans with (Qfloor (100 + (1 # 2))%Q);
          [|vm_compute; discriminate].
        apply Qfloor_resp_le. lra.
Qed.

Lemma accuracy_range_witness :
  accuracy (mkCompleteSession 0 0 30) = 0%Q
  /\ exists z : Z, 0 <= z <= 100
       /\ accuracy (mkCompleteSession 3 2 45) = inject_Z z.
Proof.
  split.
  - apply (proj1 (accuracy_range (mkCompleteSession 0 0 30))).
    vm_compute. discriminate.
  - apply (proj2 (accuracy_range (mkCompleteSession 3 2 45)));
      vm_compute; discriminate.
Defined.

(** ** The rate limit *)

(** The answers to the requests of a client within its window, from a count
    [c] on: as many are let through as the limit leaves, the others are
    refused. *)
Lemma requests_in_window (key : string) (limit windowMs : Z)
    (times : list Z) :
  forall (store : gmap string ClientData) (c reset : Z),
    store !! key = Some (mkClientData c reset) ->
    Forall (fun t => t <= reset) times ->
    fst (requests store key limit windowMs times)
    = replicate (length times `min` Z.to_nat (limit - c)) true
      ++ replicate (length times - Z.to_nat (limit - c)) false.
Proof.
  induction times as [|t times IH]; intros store c reset Hk Hall;
    [reflexivity|].
  apply Forall_cons in Hall as [Ht Hall].
  cbn [requests]. unfold rateLimit. rewrite Hk. cbn [resetTime count].
  destruct (Z.ltb_spec reset t) as [Hexp|_]; [lia|].
  destruct (Z.leb_spec limit c) as [Hfull|Hroom].
  - specialize (IH store c reset Hk Hall).
    destruct (requests store key limit windowMs times) as [answers store'].
    cbn [fst] in *. rewrite IH.
    replace (Z.to_nat (limit - c)) with 0%nat by lia.
    rewrite !Nat.min_0_r, !Nat.sub_0_r. reflexivity.
  - specialize (IH (<[key := mkClientData (c + 1) reset]> store) (c + 1)
                   reset (lookup_insert_eq _ _ _) Hall).
    destruct (requests _ key limit windowMs times) as [answers store'].
    cbn [fst] in *. rewrite IH.
    replace (Z.to_nat (limit - c)) with (S (Z.to_nat (limit - (c + 1))))
      by lia.
    cbn [length]. rewrite <- Nat.succ_min_distr. reflexivity.
Qed.

(** X13.  Of the requests of a client for a URL that come within
    [windowMs] of its first one, the first is let through, then as many as
    bring the count to [limit], and every later one is refused. *)
Theorem requests_window (store : gmap string ClientData) (key : string)
    (limit windowMs t : Z) (times : list Z) :
  store !! key = None ->
  Forall (fun t' => t' <= t + windowMs) times ->
  fst (requests store key limit windowMs (t :: times))
  = true
    :: replicate (length times `min` Z.to_nat (limit - 1)) true
    ++ replicate (length times - Z.to_nat (limit - 1)) false.
Proof.
  intros Hk Hall. cbn [requests]. unfold rateLimit. rewrite Hk.
  pose proof (requests_in_window key limit windowMs times
                (<[key := mkClientData 1 (t + windowMs)]> store) 1
                (t + windowMs) (lookup_insert_eq _ _ _) Hall) as H.
  destruct (requests _ key limit windowMs times) as [answers store'].
  cbn [fst] in *. rewrite H. reflexivity.
Qed.

Lemma requests_window_witness :
  fst (requests ∅ "10.0.0.1:/api/decks" 2 1000 [5000; 5100; 5200; 6000])
  = [true; true; false; false].
Proof.
  apply (requests_window ∅ "10.0.0.1:/api/decks" 2 1000 5000
           [5100; 5200; 6000]).
  - apply lookup_empty.
  - repeat constructor; vm_compute; discriminate.
Defined.

(** X14.  A request is refused exactly when the client has an entry whose
    window has not ended and whose count has reached the limit, and then
    the store stays as it is; a request touches no entry but that of its
    key; once the window of an entry has ended the next request is let
    through and starts a window with count 1; counts stay between 1 and the
    limit (or 1, for a limit below 1). *)
Theorem rateLimit_store (store : gmap string ClientData) (key : string)
    (now_ limit windowMs : Z) :
  (fst (rateLimit store key now_ limit windowMs) = false
   <-> exists d : ClientData,
         store !! key = Some d /\ now_ <= resetTime d /\ limit <= count d)
  /\ (fst (rateLimit store key now_ limit windowMs) = false ->
      snd (rateLimit store key now_ limit windowMs) = store)
  /\ (forall key' : string,
         key' <> key ->
         snd (rateLimit store key now_ limit windowMs) !! key'
         = store !! key')
  /\ (forall d : ClientData,
         store !! key = Some d -> resetTime d < now_ ->
         fst (rateLimit store key now_ limit windowMs) = true
         /\ snd (rateLimit store key now_ limit windowMs) !! key
            = Some (mkClientData 1 (now_ + windowMs)))
  /\ (map_Forall (fun _ d => 1 <= count d <= Z.max 1 limit) store ->
      map_Forall (fun _ d => 1 <= count d <= Z.max 1 limit)
                 (snd (rateLimit store key now_ limit windowMs))).
Proof.
  unfold rateLimit.
  destruct (store !! key) as [d|] eqn:Hk.
  - destruct (Z.ltb_spec (resetTime d) now_) as [Hexp|Hin];
      [|destruct (Z.leb_spec limit (count d)) as [Hfull|Hroom]];
      cbn [fst snd].
    + split; [split; [discriminate | intros (d' & [= <-] & ? & _); lia]|].
      split; [discriminate|].
      split; [intros key' Hne; apply lookup_insert_ne; congruence|].
      split; [intros d' _ _; split;
              [reflexivity | apply lookup_insert_eq]|].
      intros Hinv. apply map_Forall_insert_2; [cbn; lia | exact Hinv].
    + split; [split; [intros _; exists d; auto | reflexivity]|].
      split; [reflexivity|]. split; [reflexivity|].
      split; [intros d' [= <-] ?; lia | auto].
    + split; [split; [discriminate | intros (d' & [= <-] & _ & ?); lia]|].
      split; [discriminate|].
      split; [intros key' Hne; apply lookup_insert_ne; congruence|].
      split; [intros d' [= <-] ?; lia|].
      intros Hinv. pose proof (Hinv key d Hk) as Hd. cbv beta in Hd.
      apply map_Forall_insert_2; [cbn; lia | exact Hinv].
  - cbn [fst snd].
    split; [split; [discriminate | intros (d' & [=] & _)]|].
    split; [discriminate|].
    split; [intros key' Hne; apply lookup_insert_ne; congruence|].
    split; [intros d' [=]|].
    intros Hinv. apply map_Forall_insert_2; [cbn; lia | exact Hinv].
Qed.

Lemma rateLimit_store_witness :
  snd (rateLimit (<[ "a:/x" := mkClientData 2 500 ]> ∅) "a:/x" 400 2 1000)
  = <[ "a:/x" := mkClientData 2 500 ]> ∅.
Proof.
  apply (proj1 (proj2 (rateLimit_store
                         (<[ "a:/x" := mkClientData 2 500 ]> ∅) "a:/x"
                         400 2 1000))).
  reflexivity.
Defined.

(** ** [calculateSM2] *)

(** X15.  Whatever the card and the rating, the interval [calculateSM2]
    gives lies between a quarter of a day and 365 days. *)
Theorem calculateSM2_interval_range (card : QueueCard) (quality : Q) :
  (0.25 <= sm2_interval (calculateSM2 card quality))%Q
  /\ (sm2_interval (calculateSM2 card quality) <= 365)%Q.
Proof.
  unfold calculateSM2.
  destruct (stage (q_card card)); break_if; fields;
    unfold Math.max, Math.min;
    (split; [apply Q.le_max_l|]);
    (apply Q.max_lub; [lra | apply Q.le_min_l]).
Qed.

(** X16.  A rating of 3 or more moves a card at most one stage forward,
    never back, and adds one to the correct answers in a row; a rating
    below 3 never moves it forward and sets that count to 0: the rating 1
    takes a [review] or [mastered] card back to [learning], any other such
    rating leaves the stage as it is. *)
Theorem calculateSM2_stage_step (card : QueueCard) (quality : Q) :
  if Qgeb quality 3
  then rank (stage (q_card card))
       <= rank (sm2_stage (calculateSM2 card quality))
       <= rank (stage (q_card card)) + 1
       /\ sm2_consecutiveCorrect (calculateSM2 card quality)
          = consecutiveCorrect (q_card card) + 1
  else sm2_consecutiveCorrect (calculateSM2 card quality) = 0
       /\ sm2_stage (calculateSM2 card quality)
          = if Qeqb quality 1
            then match stage (q_card card) with
                 | review | mastered => learning
                 | s => s
                 end
            else stage (q_card card).
Proof.
  unfold calculateSM2.
  destruct (Qgeb quality 3), (stage (q_card card)); break_if; fields;
    cbn [rank]; split; lia || reflexivity.
Qed.

(** ** The statistics of a session *)

Lemma handleCardReview_counts (st : State) (quality responseTime : Q)
    (wasCorrect submitted : bool) (card : QueueCard) :
  studyQueue st !! currentCardIndex st = Some card ->
  let st' := handleCardReview st quality responseTime wasCorrect submitted in
  studied (sessionStats st')
  = studied (sessionStats st)
    + (if bool_decide (sm2_stage (calculateSM2 card quality) = mastered)
       then 1 else 0)
  /\ correct (sessionStats st')
     = correct (sessionStats st) + (if wasCorrect then 1 else 0)
  /\ totalReviews (sessionStats st') = totalReviews (sessionStats st) + 1
  /\ stageProgress (sessionStats st')
     = calculateStageProgress (q_card <$> studyQueue st')
                              (studied (sessionStats st')).
Proof.
  intros Hc st'. subst st'.
  pose proof (lookup_lt_Some _ _ _ Hc) as Hlt.
  unfold handleCardReview. rewrite Hc.
  destruct (validReviewData _ _ _ && submitted); case_bool_decide as Hm;
    cbn [sessionStats studied correct totalReviews stageProgress studyQueue];
    repeat split; try lia; try reflexivity.
  rewrite list_fmap_delete. symmetry.
  apply (calculateStageProgress_delete _ _
           (q_card (assignSM2 card (calculateSM2 card quality)))).
  - rewrite list_lookup_fmap, list_lookup_insert_eq by exact Hlt. reflexivity.
  - exact Hm.
Qed.


(** What every review keeps: the cards mastered and those of the queue add
    up to the same number, the reviews and the correct ones are counted one
    by one. *)
Lemma handleCardReview_counted (st : State) (quality responseTime : Q)
    (wasCorrect submitted : bool) :
  let st' := handleCardReview st quality responseTime wasCorrect submitted in
  studied (sessionStats st') + Z.of_nat (length (studyQueue st'))
  = studied (sessionStats st) + Z.of_nat (length (studyQueue st))
  /\ correct (sessionStats st) <= correct (sessionStats st')
  /\ correct (sessionStats st') - correct (sessionStats st)
     <= totalReviews (sessionStats st') - totalReviews (sessionStats st)
  /\ totalReviews (sessionStats st') - totalReviews (sessionStats st) <= 1.
Proof.
  intros st'. subst st'.
  destruct (studyQueue st !! currentCardIndex st) as [card|] eqn:Hc.
  - pose proof (handleCardReview_counts st quality responseTime wasCorrect
                  submitted card Hc) as (Hs & Hco & Ht & _).
    cbv zeta in Hs, Hco, Ht.
    rewrite Hs, Hco, Ht, (handleCardReview_queue _ _ _ _ _ _ Hc).
    case_bool_decide.
    + rewrite length_delete by eauto.
      pose proof (lookup_lt_Some _ _ _ Hc). destruct wasCorrect; lia.
    + rewrite length_insert. destruct wasCorrect; lia.
  - rewrite handleCardReview_none by exact Hc. lia.
Qed.

(** The counts of a session, from its start. *)
Lemma session_counted (cards_ : list Card) (events : list ReviewEvent) :
  let st := session events (fetchStudyData cards_) in
  studied (sessionStats st) + Z.of_nat (length (studyQueue st))
  = Z.of_nat (length cards_)
  /\ 0 <= studied (sessionStats st)
  /\ 0 <= correct (sessionStats st) <= totalReviews (sessionStats st)
  /\ totalReviews (sessionStats st) <= Z.of_nat (length events)
  /\ (studyQueue st = []
      \/ is_Some (studyQueue st !! currentCardIndex st)).
Proof.
  cbv zeta.
  assert (Hgen : forall (st : State) (n m : Z),
    studied (sessionStats st) + Z.of_nat (length (studyQueue st)) = n ->
    0 <= studied (sessionStats st) ->
    0 <= correct (sessionStats st) <= totalReviews (sessionStats st) ->
    totalReviews (sessionStats st) <= m ->
    (studyQueue st = [] \/ is_Some (studyQueue st !! currentCardIndex st)) ->
    let st' := session events st in
    studied (sessionStats st') + Z.of_nat (length (studyQueue st')) = n
    /\ 0 <= studied (sessionStats st')
    /\ 0 <= correct (sessionStats st') <= totalReviews (sessionStats st')
    /\ totalReviews (sessionStats st') <= m + Z.of_nat (length events)
    /\ (studyQueue st' = []
        \/ is_Some (studyQueue st' !! currentCardIndex st'))).
  { induction events as [|ev events IH]; intros st n m Hn Hs Hc Ht Hi.
    - cbn. repeat split; try lia; assumption.
    - pose proof (handleCardReview_counted st (ev_quality ev)
                    (ev_responseTime ev) (ev_wasCorrect ev)
                    (ev_submitted ev)) as (Hn' & Hc1 & Hc2 & Ht').
      cbv zeta in Hn', Hc1, Hc2, Ht'.
      cbn [session fold_left length].
      specialize (IH (handleCardReview st (ev_quality ev)
                        (ev_responseTime ev) (ev_wasCorrect ev)
                        (ev_submitted ev)) n (m + 1)).
      cbv zeta in IH. unfold session in IH.
      replace (m + Z.of_nat (S (length events)))
        with (m + 1 + Z.of_nat (length events)) by lia.
      apply IH; try lia.
      + destruct (studyQueue st !! currentCardIndex st) as [card|] eqn:Hcur.
        * pose proof (handleCardReview_counts st (ev_quality ev)
                        (ev_responseTime ev) (ev_wasCorrect ev)
                        (ev_submitted ev) card Hcur) as (Hst & _).
          cbv zeta in Hst. rewrite Hst. case_bool_decide; lia.
        * rewrite handleCardReview_none by exact Hcur. exact Hs.
      + destruct (studyQueue st !! currentCardIndex st) as [card|] eqn:Hcur.
        * destruct (handleCardReview_current st (ev_quality ev)
                      (ev_responseTime ev) (ev_wasCorrect ev)
                      (ev_submitted ev) card Hcur) as [Hnil|Hlt];
            [left; exact Hnil | right; apply lookup_lt_is_Some, Hlt].
        * rewrite handleCardReview_none by exact Hcur.
          destruct Hi as [Hnil | [x Hx]]; [left; exact Hnil | discriminate]. }
  specialize (Hgen (fetchStudyData cards_) (Z.of_nat (length cards_)) 0).
  cbv zeta in Hgen. rewrite Z.add_0_l in Hgen. apply Hgen.
  - rewrite fetchStudyData_queue. unfold initialQueue.
    rewrite length_fmap. destruct cards_; cbn; lia.
  - destruct cards_; cbn; lia.
  - destruct cards_; cbn; lia.
  - destruct cards_; cbn; lia.
  - destruct cards_ as [|c cards_]; [left; reflexivity | right].
    apply lookup_lt_is_Some. cbn. lia.
Qed.

(** X17.  All along a session the cards mastered so far and the cards still
    in the queue add up to the cards the session started with; the correct
    answers counted are no more than the reviews counted, and these no more
    than the answers given; the queue never holds more cards than at the
    start, and the current card exists unless the queue is empty. *)
Theorem session_counts (cards_ : list Card) (events : list ReviewEvent) :
  let st := session events (fetchStudyData cards_) in
  studied (sessionStats st) + Z.of_nat (length (studyQueue st))
  = Z.of_nat (length cards_)
  /\ (length (studyQueue st) <= length cards_)%nat
  /\ 0 <= correct (sessionStats st) <= totalReviews (sessionStats st)
  /\ totalReviews (sessionStats st) <= Z.of_nat (length events)
  /\ (studyQueue st = []
      \/ is_Some (studyQueue st !! currentCardIndex st)).
Proof.
  pose proof (session_counted cards_ events) as H. cbv zeta in *.
  destruct H as (Hsum & Hs & Hc & Ht & Hi).
  repeat split; try assumption; try lia.
Qed.

(** The counts of [calculateStageProgress]: the cards that are not
    mastered, stage by stage, and the count passed in. *)
Lemma calculateStageProgress_total (l : list Card) (masteredCount : Z) :
  Forall (fun c => stage c <> mastered) l ->
  p_new (calculateStageProgress l masteredCount)
  + p_learning (calculateStageProgress l masteredCount)
  + p_review (calculateStageProgress l masteredCount)
  = Z.of_nat (length l)
  /\ p_mastered (calculateStageProgress l masteredCount) = masteredCount.
Proof.
  unfold calculateStageProgress. intros Hall.
  assert (Hgen : forall acc : StageProgress,
    let p := fold_left
      (fun progress card =>
         match stage card with
         | new =>
             mkStageProgress (p_new progress + 1) (p_learning progress)
                             (p_review progress) (p_mastered progress)
         | learning =>
             mkStageProgress (p_new progress) (p_learning progress + 1)
                             (p_review progress) (p_mastered progress)
         | review =>
             mkStageProgress (p_new progress) (p_learning progress)
                             (p_review progress + 1) (p_mastered progress)
         | mastered => progress
         end) l acc in
    p_new p + p_learning p + p_review p
    = p_new acc + p_learning acc + p_review acc + Z.of_nat (length l)
    /\ p_mastered p = p_mastered acc).
  { induction Hall as [|c l Hc Hall IH]; intros acc; cbn [fold_left length].
    - cbv zeta. lia.
    - cbv zeta in *.
      destruct (stage c); try congruence;
        match goal with
        | |- context [fold_left _ l ?a] => destruct (IH a) as [H1 H2]
        end; cbn [p_new p_learning p_review p_mastered] in *; lia. }
  specialize (Hgen (mkStageProgress 0 0 0 masteredCount)).
  cbv zeta in Hgen. cbn [p_new p_learning p_review p_mastered] in Hgen.
  destruct Hgen as [H1 H2]. split; [lia | exact H2].
Qed.

Lemma calculateStageProgress_initialQueue (cards_ : list Card)
    (masteredCount : Z) :
  calculateStageProgress (q_card <$> initialQueue cards_) masteredCount
  = calculateStageProgress cards_ masteredCount.
Proof.
  unfold calculateStageProgress, initialQueue.
  generalize (mkStageProgress 0 0 0 masteredCount) as acc.
  induction cards_ as [|c l IH]; intros acc; [reflexivity|].
  rewrite !fmap_cons. cbn [fold_left q_card stage]. apply IH.
Qed.

(** A review keeps mastered cards out of the queue. *)
Lemma handleCardReview_noneMastered (st : State) (quality responseTime : Q)
    (wasCorrect submitted : bool) :
  noneMastered (studyQueue st) ->
  noneMastered
    (studyQueue
       (handleCardReview st quality responseTime wasCorrect submitted)).
Proof.
  unfold noneMastered. intros Hall.
  destruct (studyQueue st !! currentCardIndex st) as [card|] eqn:Hc.
  - rewrite (handleCardReview_queue _ _ _ _ _ _ Hc).
    case_bool_decide as Hm.
    + apply Forall_delete, Hall.
    + apply Forall_insert; [exact Hall | exact Hm].
  - rewrite handleCardReview_none by exact Hc. exact Hall.
Qed.

(** X18.  When no card is mastered at the start of a session, as for the
    cards the session route hands out, no mastered card is ever in the
    queue, and the progress by stage shown after every review counts the
    queue: the cards counted as new, learning and review are the cards of
    the queue, and the count of mastered cards is the number of cards
    mastered in the session. *)
Theorem session_stage_progress (cards_ : list Card)
    (events : list ReviewEvent) :
  Forall (fun c => stage c <> mastered) cards_ ->
  let st := session events (fetchStudyData cards_) in
  noneMastered (studyQueue st)
  /\ p_new (stageProgress (sessionStats st))
     + p_learning (stageProgress (sessionStats st))
     + p_review (stageProgress (sessionStats st))
     = Z.of_nat (length (studyQueue st))
  /\ p_mastered (stageProgress (sessionStats st))
     = studied (sessionStats st).
Proof.
  intros Hcards. cbv zeta.
  assert (Hgen : forall st : State,
    noneMastered (studyQueue st) ->
    stageProgress (sessionStats st)
    = calculateStageProgress (q_card <$> studyQueue st)
                             (studied (sessionStats st)) ->
    noneMastered (studyQueue (session events st))
    /\ stageProgress (sessionStats (session events st))
       = calculateStageProgress (q_card <$> studyQueue (session events st))
                                (studied (sessionStats (session events st)))).
  { induction events as [|ev events IH]; intros st Hn Hp;
      [split; assumption|].
    cbn [session fold_left]. apply IH.
    - apply handleCardReview_noneMastered, Hn.
    - destruct (studyQueue st !! currentCardIndex st) as [card|] eqn:Hc.
      + apply (handleCardReview_counts st (ev_quality ev)
                 (ev_responseTime ev) (ev_wasCorrect ev) (ev_submitted ev)
                 card Hc).
      + rewrite handleCardReview_none by exact Hc. exact Hp. }
  destruct (Hgen (fetchStudyData cards_)) as [Hn Hp].
  - rewrite fetchStudyData_queue. unfold noneMastered, initialQueue.
    apply Forall_fmap. eapply Forall_impl; [exact Hcards|].
    intros c Hc. exact Hc.
  - rewrite fetchStudyData_queue, calculateStageProgress_initialQueue.
    destruct cards_; reflexivity.
  - split; [exact Hn|]. rewrite Hp.
    pose proof (calculateStageProgress_total
                  (q_card <$> studyQueue
                                (session events (fetchStudyData cards_)))
                  (studied (sessionStats
                              (session events (fetchStudyData cards_)))))
      as Htot.
    rewrite length_fmap in Htot. apply Htot.
    apply Forall_fmap. exact Hn.
Qed.

Lemma session_stage_progress_witness :
  noneMastered
    (studyQueue (session Sample.easyAnswers
                   (fetchStudyData [Sample.newCard; Sample.reviewCard])))
  /\ p_mastered
       (stageProgress
          (sessionStats
             (session Sample.easyAnswers
                (fetchStudyData [Sample.newCard; Sample.reviewCard]))))
     = studied
         (sessionStats
            (session Sample.easyAnswers
               (fetchStudyData [Sample.newCard; Sample.reviewCard]))).
Proof.
  pose proof (session_stage_progress [Sample.newCard; Sample.reviewCard]
                Sample.easyAnswers) as H.
  cbv zeta in H. destruct H as (Hn & _ & Hm).
  - repeat constructor; discriminate.
  - split; [exact Hn | exact Hm].
Defined.

(** ** The progress bar *)

Lemma stageWeights_nonneg (s : Stage) : (0 <= stageWeights s)%Q.
Proof. destruct s; cbn; lra. Qed.

Lemma weights_nonneg (queue : list Card) (total : Q) :
  (0 <= total)%Q ->
  (0 <= fold_left (fun total card => total + stageWeights (stage card))
                  queue total)%Q.
Proof.
  revert total. induction queue as [|c l IH]; intros total Ht; [exact Ht|].
  cbn [fold_left]. apply IH.
  pose proof (stageWeights_nonneg (stage c)). lra.
Qed.

(** The values of [calculateWeightedProgress]. *)
Lemma calculateWeightedProgress_facts (initialCards currentQueue : list Card)
    (masteredCount : Z) :
  (initialCards = [] ->
   calculateWeightedProgress initialCards currentQueue masteredCount = 0%Q)
  /\ (0 <= masteredCount ->
      (0 <= calculateWeightedProgress initialCards currentQueue
                                      masteredCount)%Q
      /\ (calculateWeightedProgress initialCards currentQueue masteredCount
          <= 100)%Q)
  /\ (initialCards <> [] ->
      masteredCount = Z.of_nat (length initialCards) ->
      (calculateWeightedProgress initialCards [] masteredCount == 100)%Q).
Proof.
  unfold calculateWeightedProgress. split; [intros ->; reflexivity|].
  split.
  - intros Hk. destruct (Nat.eqb_spec (length initialCards) 0) as [|Hn];
      [split; lra|].
    unfold Math.min. split; [|apply Q.le_min_l].
    apply Q.min_glb; [lra|].
    assert (Hlen : (0 < inject_Z (Z.of_nat (length initialCards)))%Q).
    { change 0%Q with (inject_Z 0). rewrite <- Zlt_Qlt. lia. }
    assert (Htot : (0 <= fold_left
                           (fun total card => total + stageWeights (stage card))
                           currentQueue
                           (0 + inject_Z masteredCount
                                * stageWeights mastered))%Q).
    { apply weights_nonneg.
      assert (0 <= inject_Z masteredCount)%Q
        by (change 0%Q with (inject_Z 0); rewrite <- Zle_Qle; exact Hk).
      cbn [stageWeights]. lra. }
    apply Qmult_le_0_compat; [|lra].
    apply Qle_shift_div_l; [exact Hlen | lra].
  - intros Hne ->.
    destruct (Nat.eqb_spec (length initialCards) 0) as [Hz|Hn].
    { destruct initialCards; [congruence | discriminate]. }
    cbn [fold_left stageWeights]. unfold Math.min.
    assert (Hlen : ~ (inject_Z (Z.of_nat (length initialCards)) == 0)%Q).
    { change 0%Q with (inject_Z 0). rewrite inject_Z_injective. lia. }
    rewrite Q.min_r.
    + field. exact Hlen.
    + apply Qle_lteq. right. field. exact Hlen.
Qed.

(** X19.  The weighted progress is 0 for a session without cards, lies
    between 0 and 100 whenever the count of mastered cards is not negative,
    and is 100 when the queue is empty and every card the session started
    with is mastered. *)
Theorem calculateWeightedProgress_range (initialCards currentQueue : list Card)
    (masteredCount : Z) :
  (initialCards = [] ->
   calculateWeightedProgress initialCards currentQueue masteredCount = 0%Q)
  /\ (0 <= masteredCount ->
      (0 <= calculateWeightedProgress initialCards currentQueue
                                      masteredCount)%Q
      /\ (calculateWeightedProgress initialCards currentQueue masteredCount
          <= 100)%Q)
  /\ (initialCards <> [] ->
      masteredCount = Z.of_nat (length initialCards) ->
      (calculateWeightedProgress initialCards [] masteredCount == 100)%Q).
Proof. apply calculateWeightedProgress_facts. Qed.

Lemma calculateWeightedProgress_range_witness :
  (0 <= calculateWeightedProgress [Sample.newCard; Sample.reviewCard]
          [Sample.reviewCard] 1)%Q
  /\ (calculateWeightedProgress [Sample.newCard; Sample.reviewCard]
        [Sample.reviewCard] 1 <= 100)%Q.
Proof.
  apply (proj1 (proj2 (calculateWeightedProgress_range
                         [Sample.newCard; Sample.reviewCard]
                         [Sample.reviewCard] 1))).
  lia.
Defined.

(** X20.  The progress bar of a session always shows a value from 0 to 100,
    and shows 100 once the session is complete (when it started with a card
    at least). *)
Theorem session_weightedProgress (cards_ : list Card)
    (events : list ReviewEvent) :
  ((0 <= weightedProgress cards_ (session events (fetchStudyData cards_)))%Q
   /\ (weightedProgress cards_ (session events (fetchStudyData cards_))
       <= 100)%Q)
  /\ (cards_ <> [] ->
      isSessionComplete (session events (fetchStudyData cards_)) = true ->
      (weightedProgress cards_ (session events (fetchStudyData cards_))
       == 100)%Q).
Proof.
  pose proof (session_counted cards_ events) as H. cbv zeta in H.
  destruct H as (Hsum & Hs & _).
  unfold weightedProgress. split.
  - apply (proj1 (proj2 (calculateWeightedProgress_facts _ _ _))). exact Hs.
  - intros Hne Hdone. unfold isSessionComplete in Hdone.
    apply Nat.eqb_eq, length_zero_iff_nil in Hdone.
    rewrite Hdone in *. cbn [fmap list_fmap length] in *.
    apply (proj2 (proj2 (calculateWeightedProgress_facts cards_ [] _)) Hne).
    lia.
Qed.

Lemma session_weightedProgress_witness :
  (weightedProgress [Sample.newCard]
     (session Sample.easyAnswers (fetchStudyData [Sample.newCard]))
   == 100)%Q.
Proof.
  apply (proj2 (session_weightedProgress [Sample.newCard]
                  Sample.easyAnswers)).
  - discriminate.
  - reflexivity.
Defined.

(** ** The fallback of [submitReview] against the review route *)

(** X21.  The scheduling step of the fallback gives the interval and the
    number of correct answers in a row of the review route, always; the
    same ease factor for a failed review and for the ratings 3 and 4 or
    more; and the same stage except for a [review] card answered correctly
    with a rating from 3 to below 4 after three or more correct answers in a
    row, which the review route makes [mastered] and the fallback leaves in
    [review]. *)
Theorem demoSchedule_against_schedule (c : Card) (quality : Q)
    (wasCorrect : bool) :
  newInterval (demoSchedule c quality wasCorrect)
  = newInterval (schedule c quality wasCorrect)
  /\ newConsecutiveCorrect (demoSchedule c quality wasCorrect)
     = newConsecutiveCorrect (schedule c quality wasCorrect)
  /\ (wasCorrect = false \/ (4 <= quality)%Q \/ (quality == 3)%Q ->
      newEaseFactor (demoSchedule c quality wasCorrect)
      = newEaseFactor (schedule c quality wasCorrect))
  /\ (if bool_decide (stage c = review) && wasCorrect
         && Qgeb quality 3 && negb (Qgeb quality 4)
         && (3 <=? or_zero (consecutiveCorrect c))
      then newStage (demoSchedule c quality wasCorrect) = review
           /\ newStage (schedule c quality wasCorrect) = mastered
      else newStage (demoSchedule c quality wasCorrect)
           = newStage (schedule c quality wasCorrect)).
Proof.
  split; [|split; [|split]].
  - unfold demoSchedule, schedule.
    destruct wasCorrect, (stage c); break_if; reflexivity.
  - unfold demoSchedule, schedule.
    destruct wasCorrect, (stage c); break_if; reflexivity.
  - intros Hq. unfold demoSchedule, schedule.
    destruct wasCorrect.
    + destruct Hq as [Hq | [Hq | Hq]]; [discriminate| |].
      * apply Qgeb_true in Hq. rewrite !Hq.
        destruct (stage c); break_if; reflexivity.
      * apply Qeqb_true in Hq. rewrite !Hq.
        destruct (stage c); break_if; reflexivity.
    + destruct (stage c); reflexivity.
  - unfold demoSchedule, schedule.
    destruct wasCorrect, (stage c) eqn:Hs; cbn [bool_decide andb];
      try (rewrite (bool_decide_false (_ = review)) by discriminate);
      try (rewrite (bool_decide_true (_ = review)) by reflexivity);
      cbn [andb]; try (break_if; reflexivity).
    destruct (Qgeb quality 3) eqn:E3, (Qgeb quality 4) eqn:E4;
      cbn [andb negb]; rewrite ?andb_true_r, ?andb_false_r; cbn [andb];
      fields;
      repeat match goal with
             | |- context [?a <=? ?b] => destruct (Z.leb_spec a b)
             end;
      cbn [andb]; try lia; try reflexivity; split; reflexivity.
Qed.

Lemma demoSchedule_against_schedule_witness :
  newEaseFactor (demoSchedule Sample.learningCard 4 true)
  = newEaseFactor (schedule Sample.learningCard 4 true).
Proof.
  apply (proj1 (proj2 (proj2 (demoSchedule_against_schedule
                                Sample.learningCard 4 true)))).
  right. left. vm_compute. discriminate.
Defined.

(** ** [moveToNextAvailableCard] *)

Lemma firstReady_Some (now_ : Z) (queue : list QueueCard) :
  forall i k : nat,
    firstReady now_ i queue = Some k ->
    exists (j : nat) (card : QueueCard),
      k = (i + j)%nat /\ queue !! j = Some card /\ ready now_ card = true
      /\ forall (j' : nat) (c' : QueueCard),
          (j' < j)%nat -> queue !! j' = Some c' -> ready now_ c' = false.
Proof.
  induction queue as [|card queue IH]; intros i k H; [discriminate|].
  cbn [firstReady] in H. destruct (ready now_ card) eqn:Hr.
  - injection H as <-. exists 0%nat, card.
    split; [lia|]. split; [reflexivity|]. split; [exact Hr|]. lia.
  - apply IH in H as (j & c & -> & Hj & Hc & Hbefore).
    exists (S j), c. split; [lia|]. split; [exact Hj|]. split; [exact Hc|].
    intros [|j'] c' Hlt Hl.
    + injection Hl as <-. exact Hr.
    + apply (Hbefore j' c'); [lia | exact Hl].
Qed.

Lemma firstReady_None (now_ : Z) (queue : list QueueCard) :
  forall i : nat,
    firstReady now_ i queue = None ->
    Forall (fun c => ready now_ c = false) queue.
Proof.
  induction queue as [|card queue IH]; intros i H; [constructor|].
  cbn [firstReady] in H. destruct (ready now_ card) eqn:Hr; [discriminate|].
  constructor; [exact Hr | apply (IH _ H)].
Qed.

Lemma earliest_spec (rest : list QueueCard) :
  forall (i : nat) (e : Z) (idx : nat),
    (earliest i rest (Some e) idx = idx
     /\ forall (j : nat) (c : QueueCard) (t : Z),
         rest !! j = Some c -> nextShowTime c = Some t -> e <= t)
    \/ exists (j : nat) (c : QueueCard) (t : Z),
        earliest i rest (Some e) idx = (i + j)%nat
        /\ rest !! j = Some c /\ nextShowTime c = Some t /\ t < e
        /\ forall (j' : nat) (c' : QueueCard) (t' : Z),
            rest !! j' = Some c' -> nextShowTime c' = Some t' ->
            t <= t' /\ ((j' < j)%nat -> t < t').
Proof.
  induction rest as [|card rest IH]; intros i e idx.
  - left. split; [reflexivity|]. intros j c t H. discriminate.
  - cbn [earliest]. destruct (nextShowTime card) as [t0|] eqn:Ht0.
    + destruct (Z.ltb_spec t0 e) as [Hlt|Hge].
      * right.
        destruct (IH (S i) t0 i) as [[Hr Hall] | (j & c & t & Hr & Hj & Hc
                                                  & Hlt' & Hmin)].
        -- exists 0%nat, card, t0. rewrite Hr.
           split; [lia|]. split; [reflexivity|]. split; [exact Ht0|].
           split; [exact Hlt|].
           intros [|j'] c' t' Hl Hn.
           ++ injection Hl as <-. rewrite Ht0 in Hn. injection Hn as <-. lia.
           ++ split; [apply (Hall j' c' t' Hl Hn) | lia].
        -- exists (S j), c, t. rewrite Hr.
           split; [lia|]. split; [exact Hj|]. split; [exact Hc|].
           split; [lia|].
           intros [|j'] c' t' Hl Hn.
           ++ injection Hl as <-. rewrite Ht0 in Hn. injection Hn as <-. lia.
           ++ destruct (Hmin j' c' t' Hl Hn) as [H1 H2].
              split; [exact H1 | intros ?; apply H2; lia].
      * destruct (IH (S i) e idx) as [[Hr Hall] | (j & c & t & Hr & Hj & Hc
                                                   & Hlt' & Hmin)].
        -- left. split; [exact Hr|].
           intros [|j'] c' t' Hl Hn.
           ++ injection Hl as <-. rewrite Ht0 in Hn. injection Hn as <-. lia.
           ++ apply (Hall j' c' t' Hl Hn).
        -- right. exists (S j), c, t. rewrite Hr.
           split; [lia|]. split; [exact Hj|]. split; [exact Hc|].
           split; [exact Hlt'|].
           intros [|j'] c' t' Hl Hn.
           ++ injection Hl as <-. rewrite Ht0 in Hn. injection Hn as <-. lia.
           ++ destruct (Hmin j' c' t' Hl Hn) as [H1 H2].
              split; [exact H1 | intros ?; apply H2; lia].
    + destruct (IH (S i) e idx) as [[Hr Hall] | (j & c & t & Hr & Hj & Hc
                                                 & Hlt' & Hmin)].
      * left. split; [exact Hr|].
        intros [|j'] c' t' Hl Hn.
        -- injection Hl as <-. congruence.
        -- apply (Hall j' c' t' Hl Hn).
      * right. exists (S j), c, t. rewrite Hr.
        split; [lia|]. split; [exact Hj|]. split; [exact Hc|].
        split; [exact Hlt'|].
        intros [|j'] c' t' Hl Hn.
        -- injection Hl as <-. congruence.
        -- destruct (Hmin j' c' t' Hl Hn) as [H1 H2].
           split; [exact H1 | intros ?; apply H2; lia].
Qed.

(** X22.  On a queue that is not empty, [moveToNextAvailableCard] sets the
    index of a card of the queue: the first card that can be shown (no
    [nextShowTime], or one that has come), or, when no card can be shown
    yet, the first of the cards with the earliest [nextShowTime]. *)
Theorem moveToNextAvailableCard_choice (now_ : Z) (queue : list QueueCard) :
  queue <> [] ->
  exists card : QueueCard,
    queue !! moveToNextAvailableCard now_ queue = Some card
    /\ ((ready now_ card = true
         /\ forall (j : nat) (c' : QueueCard),
             (j < moveToNextAvailableCard now_ queue)%nat ->
             queue !! j = Some c' -> ready now_ c' = false)
        \/ (Forall (fun c => ready now_ c = false) queue
            /\ exists t : Z,
                nextShowTime card = Some t
                /\ forall (j : nat) (c' : QueueCard) (t' : Z),
                    queue !! j = Some c' -> nextShowTime c' = Some t' ->
                    t <= t'
                    /\ ((j < moveToNextAvailableCard now_ queue)%nat ->
                        t < t'))).
Proof.
  intros Hne. unfold moveToNextAvailableCard.
  destruct (firstReady now_ 0 queue) as [k|] eqn:Hf.
  - apply firstReady_Some in Hf as (j & card & -> & Hj & Hr & Hbefore).
    exists card. split; [exact Hj|]. left. split; [exact Hr | exact Hbefore].
  - pose proof (firstReady_None _ _ _ Hf) as Hall.
    destruct queue as [|card0 rest]; [congruence|].
    assert (He : exists e : Z, nextShowTime card0 = Some e).
    { apply Forall_cons in Hall as [H0 _]. unfold ready in H0.
      destruct (nextShowTime card0); [eauto | discriminate]. }
    destruct He as [e He]. rewrite He.
    destruct (earliest_spec rest 1 e 0)
      as [[Hr Hge] | (j & c & t & Hr & Hj & Hc & Hlt & Hmin)]; rewrite Hr.
    + exists card0. split; [reflexivity|]. right. split; [exact Hall|].
      exists e. split; [exact He|].
      intros [|j'] c' t' Hl Hn.
      * injection Hl as <-. rewrite He in Hn. injection Hn as <-. lia.
      * split; [apply (Hge j' c' t' Hl Hn) | lia].
    + exists c. split; [exact Hj|]. right. split; [exact Hall|].
      exists t. split; [exact Hc|].
      intros [|j'] c' t' Hl Hn.
      * injection Hl as <-. rewrite He in Hn. injection Hn as <-. lia.
      * destruct (Hmin j' c' t' Hl Hn) as [H1 H2].
        split; [exact H1 | intros ?; apply H2; lia].
Qed.

Lemma moveToNextAvailableCard_choice_witness :
  exists card : QueueCard,
    Cases.waiting !! moveToNextAvailableCard 1700000000000 Cases.waiting
    = Some card.
Proof.
  destruct (moveToNextAvailableCard_choice 1700000000000 Cases.waiting)
    as (card & Hc & _); [discriminate|].
  exists card. exact Hc.
Defined.

(** ** The fallback of [startStudySession] *)

Lemma insertCard_Permutation (x : Card) (l : list Card) :
  insertCard x l ≡ₚ x :: l.
Proof.
  induction l as [|y l IH]; [reflexivity|].
  cbn [insertCard]. destruct (nextReviewAt x <=? nextReviewAt y);
    [reflexivity|].
  rewrite IH. apply Permutation_swap.
Qed.

Lemma sortCards_Permutation (l : list Card) : sortCards l ≡ₚ l.
Proof.
  unfold sortCards. induction l as [|x l IH]; [reflexivity|].
  cbn [foldr]. rewrite insertCard_Permutation, IH. reflexivity.
Qed.

Lemma insertCard_sorted (x : Card) (l : list Card) :
  StronglySorted (fun a b => nextReviewAt a <= nextReviewAt b) l ->
  StronglySorted (fun a b => nextReviewAt a <= nextReviewAt b)
                 (insertCard x l).
Proof.
  induction 1 as [|y l Hs IH Hy]; cbn [insertCard].
  - repeat constructor.
  - destruct (Z.leb_spec (nextReviewAt x) (nextReviewAt y)) as [Hle|Hgt].
    + constructor; [constructor; assumption|].
      constructor; [exact Hle|].
      eapply Forall_impl; [exact Hy|]. intros z Hz. cbv beta in *. lia.
    + constructor; [exact IH|].
      rewrite (insertCard_Permutation x l).
      constructor; [lia | exact Hy].
Qed.

Lemma sortCards_sorted (l : list Card) :
  StronglySorted (fun a b => nextReviewAt a <= nextReviewAt b) (sortCards l).
Proof.
  unfold sortCards. induction l as [|x l IH]; [constructor|].
  cbn [foldr]. apply insertCard_sorted, IH.
Qed.

(** X23.  In the fallback a session on a known deck gets cards of the deck
    that are not mastered, each a card of the local store, sorted by
    [nextReviewAt]; a [maxCards] that is missing or 0 counts as 20; when
    [maxCards] is positive and allows that many, the cards are those the
    session route of the server would hand out, up to their order. *)
Theorem demoStartStudySession_answer (env : Env) (store : Db)
    (data : StartStudySession) (session : StudySession)
    (cards_ : list Card) (store' : Db) :
  demoStartStudySession env store data = (Ok200 (session, cards_), store') ->
  (forall c : Card,
      c ∈ cards_ ->
      c ∈ cards store /\ deckId c = s_deckId data /\ stage c <> mastered)
  /\ StronglySorted (fun a b => nextReviewAt a <= nextReviewAt b) cards_
  /\ (s_maxCards data = None \/ s_maxCards data = Some 0 ->
      length cards_
      = (20 `min` length (filter (notMastered (s_deckId data))
                                 (cards store)))%nat)
  /\ (forall (n : Z) (session' : StudySession) (cards' : list Card)
             (db' : Db),
         s_maxCards data = Some n ->
         0 < n ->
         (length (filter (notMastered (s_deckId data)) (cards store))
          <= Z.to_nat n)%nat ->
         study_session env store data = (Ok200 (session', cards'), db') ->
         cards_ ≡ₚ cards').
Proof.
  unfold demoStartStudySession.
  destruct (List.find _ (decks store)) eqn:Hd; [|discriminate].
  intros [= _ <- _].
  assert (Hsub : forall (n : Z) (l : list Card), slice0 n l ⊆ l).
  { intros n l. unfold slice0. destruct (0 <=? n); apply subseteq_take. }
  assert (Hsorted : forall (n : Z) (l : list Card),
            StronglySorted (fun a b => nextReviewAt a <= nextReviewAt b) l ->
            StronglySorted (fun a b => nextReviewAt a <= nextReviewAt b)
                           (slice0 n l)).
  { intros n l Hs. unfold slice0.
    destruct (0 <=? n);
      [rewrite <- (take_drop (Z.to_nat n) l) in Hs
      |rewrite <- (take_drop (length l - Z.to_nat (- n)) l) in Hs];
      apply StronglySorted_app_1_l in Hs; exact Hs. }
  split; [|split; [|split]].
  - intros c Hc. apply Hsub in Hc. rewrite sortCards_Permutation in Hc.
    apply list_elem_of_filter in Hc as [[Hdeck Hstage] Hin]. auto.
  - apply Hsorted, sortCards_sorted.
  - intros Hmax.
    assert (Hn : match s_maxCards data with
                 | None => 20
                 | Some n => if n =? 0 then 20 else n
                 end = 20) by (destruct Hmax as [-> | ->]; reflexivity).
    rewrite Hn. unfold slice0. cbn [Z.leb Z.compare Z.to_nat].
    rewrite length_take, (Permutation_length (sortCards_Permutation _)).
    reflexivity.
  - intros n session' cards' db' Hmax Hn Hlen Hs.
    apply study_session_inv in Hs as (-> & _ & _).
    rewrite Hmax. change (default 20 (Some n)) with n.
    destruct (Z.eqb_spec n 0) as [|_]; [lia|].
    unfold slice0. destruct (Z.leb_spec 0 n); [|lia].
    rewrite take_ge
      by (rewrite (Permutation_length (sortCards_Permutation _)); exact Hlen).
    unfold findMany. rewrite prisma_take_all
      by (rewrite (Permutation_length (merge_sort_Permutation _ _)); lia).
    rewrite sortCards_Permutation, merge_sort_Permutation. reflexivity.
Qed.

Lemma demoStartStudySession_answer_witness :
  exists (session : StudySession) (cards_ : list Card) (store' : Db),
    demoStartStudySession Sample.env Sample.db Sample.startBody
    = (Ok200 (session, cards_), store')
    /\ StronglySorted (fun a b => nextReviewAt a <= nextReviewAt b) cards_.
Proof.
  destruct (demoStartStudySession Sample.env Sample.db Sample.startBody)
    as [[[session cards_]| |] store'] eqn:E;
    try (vm_compute in E; discriminate).
  exists session, cards_, store'. split; [reflexivity|].
  apply (demoStartStudySession_answer Sample.env Sample.db Sample.startBody
           session cards_ store' E).
Defined.
